(** * Desk Butler cloud proxy: the [brain] handler of [src/app.py]

    A shallow embedding of the request handler [brain] and of the command
    validation loop it ends with, together with the snapshot store
    [LATEST] that [upload] writes and [brain] reads.

    Python values that reach the handler are JSON values ([json.loads]
    output); Python floats are IEEE binary64 numbers, taken from the
    specification of floating-point arithmetic of the standard library
    ([spec_float], precision 53, [emax] 1024). *)

From Stdlib Require Import ZArith QArith Bool List String Ascii Lia.
From Stdlib Require Import Floats.SpecFloat.
From stdpp Require Import base option list strings gmap.

Set Warnings "-register-all".
Local Open Scope string_scope.
Local Open Scope list_scope.
Local Open Scope Z_scope.

(** ** Python values *)

(** What [json.loads] can return.  A dict keeps its keys in insertion
    order; its keys are pairwise distinct.  A character of a [string]
    stands for one character of the Python [str]. *)
Inductive json : Type :=
| JNull
| JBool (b : bool)
| JInt (z : Z)
| JFloat (f : spec_float)
| JStr (s : string)
| JList (l : list json)
| JDict (kv : list (string * json)).

(** The exceptions the handler's builtins can raise. *)
Inductive py_exn : Type :=
| TypeError | ValueError | OverflowError | KeyError | IndexError.

(** A computation that returns or raises. *)
Inductive result (A : Type) : Type :=
| Ok (a : A)
| Raise (e : py_exn).
Arguments Ok {A} a.
Arguments Raise {A} e.

Definition rbind {A B} (m : result A) (k : A -> result B) : result B :=
  match m with
  | Ok a => k a
  | Raise e => Raise e
  end.

Declare Scope py_scope.
Delimit Scope py_scope with py.
Notation "x <- m ;; k" := (rbind m (fun x => k))
  (at level 100, m at next level, right associativity) : py_scope.
Local Open Scope py_scope.

(** ** Numbers *)

Module Num.

(** Python's [int] and [float]. *)
Inductive num : Type :=
| NInt (z : Z)
| NFloat (f : spec_float).

Definition to_json (n : num) : json :=
  match n with
  | NInt z => JInt z
  | NFloat f => JFloat f
  end.

(** binary64 *)
Definition prec : Z := 53.
Definition emax : Z := 1024.

(** The exact value of a finite float [(-1)^s * m * 2^e]. *)
Definition finite_Q (s : bool) (m : positive) (e : Z) : Q :=
  match e with
  | Z0 => cond_Zopp s (Zpos m) # 1
  | Zpos p => (cond_Zopp s (Zpos m) * 2 ^ Zpos p) # 1
  | Zneg p => cond_Zopp s (Zpos m) # (2 ^ p)
  end.

(** Values on the extended real line, and not-a-number. *)
Inductive xreal : Type :=
| XNaN
| XInf (neg : bool)
| XFin (q : Q).

Definition float_val (f : spec_float) : xreal :=
  match f with
  | S754_zero _ => XFin 0
  | S754_infinity s => XInf s
  | S754_nan => XNaN
  | S754_finite s m e => XFin (finite_Q s m e)
  end.

Definition val (n : num) : xreal :=
  match n with
  | NInt z => XFin (inject_Z z)
  | NFloat f => float_val f
  end.

(** [a < b]: Python compares an int with a float, and two floats, by
    their exact values; any comparison with a NaN is false. *)
Definition xlt (a b : xreal) : bool :=
  match a, b with
  | XNaN, _ | _, XNaN => false
  | XInf true, XInf true => false
  | XInf true, _ => true
  | _, XInf true => false
  | XInf false, _ => false
  | XFin _, XInf false => true
  | XFin p, XFin q => match (p ?= q)%Q with Lt => true | _ => false end
  end.

Definition lt (a b : num) : bool := xlt (val a) (val b).
Definition gt (a b : num) : bool := lt b a.

(** [a <= b] *)
Definition xle (a b : xreal) : bool :=
  match a, b with
  | XNaN, _ | _, XNaN => false
  | XInf true, _ => true
  | _, XInf false => true
  | XInf false, _ => false
  | XFin _, XInf true => false
  | XFin p, XFin q => match (p ?= q)%Q with Gt => false | _ => true end
  end.

Definition le (a b : num) : bool := xle (val a) (val b).

(** A float that is a number: a zero or a finite float. *)
Definition is_finite (f : spec_float) : bool :=
  match f with
  | S754_zero _ | S754_finite _ _ _ => true
  | S754_infinity _ | S754_nan => false
  end.

(** [min(a, b)] keeps [a] unless [b < a]; [max(a, b)] keeps [a] unless
    [b > a]. *)
Definition min (a b : num) : num := if lt b a then b else a.
Definition max (a b : num) : num := if gt b a then b else a.

(** [x != 0], the truth value of a number. *)
Definition float_truthy (f : spec_float) : bool :=
  match f with
  | S754_zero _ => false
  | _ => true
  end.

(** [int(f)] on a finite float: truncation toward zero. *)
Definition trunc (s : bool) (m : positive) (e : Z) : Z :=
  match e with
  | Z0 => cond_Zopp s (Zpos m)
  | Zpos p => cond_Zopp s (Zpos m * 2 ^ Zpos p)
  | Zneg p => cond_Zopp s (Zpos m / 2 ^ Zpos p)
  end.

Definition int_of_float (f : spec_float) : result Z :=
  match f with
  | S754_zero _ => Ok 0
  | S754_infinity _ => Raise OverflowError
  | S754_nan => Raise ValueError
  | S754_finite s m e => Ok (trunc s m e)
  end.

(** [float(z)]: the nearest binary64, ties to even; an int beyond the
    range of binary64 raises. *)
Definition float_of_int (z : Z) : result spec_float :=
  match binary_normalize prec emax z 0 false with
  | S754_infinity _ => Raise OverflowError
  | f => Ok f
  end.

End Num.

(** ** Builtins on JSON values *)

(** [int(s)] and [float(s)] on a [str] parse a numeric literal and raise
    [ValueError] on anything else.  The parsers belong to the interpreter;
    the handler is modelled over any pair of them. *)
Class StrParse : Type := {
  int_of_str : string -> option Z;
  float_of_str : string -> option spec_float
}.

Section Builtins.

Context `{StrParse}.

(** [bool(v)] *)
Definition truthy (v : json) : bool :=
  match v with
  | JNull => false
  | JBool b => b
  | JInt z => negb (z =? 0)
  | JFloat f => Num.float_truthy f
  | JStr s => negb (String.eqb s "")
  | JList l => match l with [] => false | _ => true end
  | JDict kv => match kv with [] => false | _ => true end
  end.

(** [int(v)] *)
Definition py_int (v : json) : result Z :=
  match v with
  | JInt z => Ok z
  | JBool b => Ok (if b then 1 else 0)
  | JFloat f => Num.int_of_float f
  | JStr s => match int_of_str s with
              | Some z => Ok z
              | None => Raise ValueError
              end
  | JNull | JList _ | JDict _ => Raise TypeError
  end.

(** [float(v)] *)
Definition py_float (v : json) : result spec_float :=
  match v with
  | JFloat f => Ok f
  | JInt z => Num.float_of_int z
  | JBool b => Num.float_of_int (if b then 1 else 0)
  | JStr s => match float_of_str s with
              | Some f => Ok f
              | None => Raise ValueError
              end
  | JNull | JList _ | JDict _ => Raise TypeError
  end.

(** The characters of a [str], each as a [str] of length one. *)
Fixpoint chars (s : string) : list json :=
  match s with
  | EmptyString => []
  | String a s' => JStr (String a EmptyString) :: chars s'
  end.

(** [iter(v)]: the elements of a list, the characters of a str, the
    keys of a dict. *)
Definition py_iter (v : json) : result (list json) :=
  match v with
  | JList l => Ok l
  | JStr s => Ok (chars s)
  | JDict kv => Ok (map (fun p => JStr (fst p)) kv)
  | JNull | JBool _ | JInt _ | JFloat _ => Raise TypeError
  end.

(** [len(v)] *)
Definition py_len (v : json) : result nat :=
  match v with
  | JList l => Ok (length l)
  | JStr s => Ok (String.length s)
  | JDict kv => Ok (length kv)
  | JNull | JBool _ | JInt _ | JFloat _ => Raise TypeError
  end.

(** [v[i]] for a literal index [i]: the keys of a JSON dict are strings,
    so an int is never one of them. *)
Definition py_getitem (v : json) (i : nat) : result json :=
  match v with
  | JList l => match nth_error l i with
               | Some x => Ok x
               | None => Raise IndexError
               end
  | JStr s => match nth_error (chars s) i with
              | Some x => Ok x
              | None => Raise IndexError
              end
  | JDict _ => Raise KeyError
  | JNull | JBool _ | JInt _ | JFloat _ => Raise TypeError
  end.

(** [v == s] for a str literal [s] *)
Definition eq_str (v : json) (s : string) : bool :=
  match v with
  | JStr s' => String.eqb s' s
  | _ => false
  end.

(** [v in (s1, s2, ...)] for a tuple of str literals *)
Definition in_strs (v : json) (ss : list string) : bool :=
  existsb (eq_str v) ss.

(** [_, a0, a1, a2, a3, g, T = c] *)
Definition unpack7 (c : json)
  : result (json * json * json * json * json * json * json) :=
  l <- py_iter c ;;
  match l with
  | [x; a0; a1; a2; a3; g; T] => Ok (x, a0, a1, a2, a3, g, T)
  | _ => Raise ValueError
  end.

(** [op == tag and len(c) == n], evaluated left to right *)
Definition tag_and_len (op c : json) (tag : string) (n : nat) : result bool :=
  if eq_str op tag then (k <- py_len c ;; Ok (Nat.eqb k n)) else Ok false.

End Builtins.

(** ** The command validation loop of [brain] *)

Inductive joint : Type := base | shoulder | elbow | wrist.

(** [ARM_LIMITS]: per joint, [[lo, hi]] in degrees. *)
Definition ARM_LIMITS (j : joint) : Z * Z :=
  match j with
  | base => (-150, 150)
  | shoulder => (-10, 120)
  | elbow => (0, 130)
  | wrist => (-90, 90)
  end.

(** [clip(v, lo, hi)] *)
Definition clip (v lo hi : Num.num) : Num.num :=
  Num.max lo (Num.min hi v).

Section Validator.

Context `{StrParse}.

(** [clip(float(a), *ARM_LIMITS[j])] *)
Definition clip_joint (a : json) (j : joint) : result json :=
  f <- py_float a ;;
  Ok (Num.to_json (clip (Num.NFloat f)
                        (Num.NInt (fst (ARM_LIMITS j)))
                        (Num.NInt (snd (ARM_LIMITS j))))).

(** [1 if int(g) else 0] *)
Definition grip_state (g : json) : result json :=
  z <- py_int g ;;
  Ok (JInt (if negb (z =? 0) then 1 else 0)).

(** [int(max(lo, min(hi, int(T))))] *)
Definition clamp_ms (T : json) (lo hi : Z) : result json :=
  t <- py_int T ;;
  z <- py_int (Num.to_json (Num.max (Num.NInt lo)
                                    (Num.min (Num.NInt hi) (Num.NInt t)))) ;;
  Ok (JInt z).

(** One turn of the [for c in cmds] loop: the command appended to
    [safe], if any. *)
Definition validate_cmd (c : json) : result (option json) :=
  if negb (truthy c) then Ok None else
  op <- py_getitem c 0 ;;
  is_move <- tag_and_len op c "MOVE" 7 ;;
  if is_move then
    t <- unpack7 c ;;
    let '(_, a0, a1, a2, a3, g, T) := t in
    a0 <- clip_joint a0 base ;;
    a1 <- clip_joint a1 shoulder ;;
    a2 <- clip_joint a2 elbow ;;
    a3 <- clip_joint a3 wrist ;;
    g <- grip_state g ;;
    T <- clamp_ms T 1000 20000 ;;
    Ok (Some (JList [JStr "MOVE"; a0; a1; a2; a3; g; T]))
  else if in_strs op ["HOME"; "STOP"; "STATUS"] then
    Ok (Some (JList [op]))
  else
    is_grip <- tag_and_len op c "GRIP" 2 ;;
    if is_grip then
      x <- py_getitem c 1 ;;
      g <- grip_state x ;;
      Ok (Some (JList [JStr "GRIP"; g]))
    else
      is_wait <- tag_and_len op c "WAIT" 2 ;;
      if is_wait then
        x <- py_getitem c 1 ;;
        T <- clamp_ms x 0 5000 ;;
        Ok (Some (JList [JStr "WAIT"; T]))
      else Ok None.

(** The loop, threading the list [safe] it appends to. *)
Fixpoint validate_loop (cs : list json) (safe : list json)
  : result (list json) :=
  match cs with
  | [] => Ok safe
  | c :: cs' =>
      r <- validate_cmd c ;;
      validate_loop cs' (match r with
                         | Some x => safe ++ [x]
                         | None => safe
                         end)
  end.

(** [safe = []; for c in cmds: ...] *)
Definition validate (cmds : json) : result (list json) :=
  cs <- py_iter cmds ;;
  validate_loop cs [].

End Validator.

(** ** The snapshot store and the handlers *)

(** An entry of [LATEST]: [{"b64": ..., "ts": ..., "mime": ...}] *)
Record Entry : Type := {
  b64 : string;
  ts : spec_float;
  mime : string
}.

(** What the handlers take from their surroundings: the configured key,
    the planning service, the JSON parser and the base64 encoder.  [inl]
    carries [str(e)] of the exception raised. *)
Class Runtime : Type := {
  PROXY_API_KEY : option string;
  responses_create : string -> string -> string + string;
  json_loads : string -> string + json;
  b64encode : list Byte.byte -> string
}.

(** The process state: the store, and the requests sent to the planning
    service so far (image data and MIME type), latest first. *)
Record World : Type := {
  LATEST : gmap string Entry;
  oracle_calls : list (string * string)
}.

(** How a handler ends. *)
Inductive outcome : Type :=
| Response (body : json)
| HTTPException (status : Z) (detail : string)
| Unhandled (e : py_exn).

(** [type(v).__name__] *)
Definition type_name (v : json) : string :=
  match v with
  | JNull => "NoneType"
  | JBool _ => "bool"
  | JInt _ => "int"
  | JFloat _ => "float"
  | JStr _ => "str"
  | JList _ => "list"
  | JDict _ => "dict"
  end.

(** [d.get(k)] on a dict *)
Fixpoint dict_get (kv : list (string * json)) (k : string) : option json :=
  match kv with
  | [] => None
  | (k', v) :: kv' => if String.eqb k' k then Some v else dict_get kv' k
  end.

(** [plan.get("cmds", [])]: only a dict has a [get]. *)
Definition plan_cmds (plan : json) : string + json :=
  match plan with
  | JDict kv => inr (default (JList []) (dict_get kv "cmds"))
  | _ => inl ("'" ++ type_name plan ++ "' object has no attribute 'get'")%string
  end.

Section Handlers.

Context `{StrParse} `{Runtime}.

(** [_require_key]: [true] when it raises. *)
Definition bad_key (x_api_key : option string) : bool :=
  match PROXY_API_KEY with
  | Some k => negb (String.eqb k "") &&
              negb (bool_decide (x_api_key = Some k))
  | None => false
  end.

(** [time.time() - entry["ts"]], a binary64 subtraction *)
Definition age (now : spec_float) (e : Entry) : spec_float :=
  SFsub Num.prec Num.emax now (ts e).

(** [time.time() - entry["ts"] > 60] *)
Definition stale (now : spec_float) (e : Entry) : bool :=
  Num.gt (Num.NFloat (age now e)) (Num.NInt 60).

(** The [try] block: the request, [json.loads], [plan.get]. *)
Definition ask_oracle (e : Entry) : string + json :=
  match responses_create (b64 e) (mime e) with
  | inl msg => inl msg
  | inr output_text =>
      match json_loads output_text with
      | inl msg => inl msg
      | inr plan => plan_cmds plan
      end
  end.

(** The world once the planning service has been sent the snapshot. *)
Definition log_call (e : Entry) (w : World) : World :=
  {| LATEST := LATEST w;
     oracle_calls := (b64 e, mime e) :: oracle_calls w |}.

(** [brain(robot_id, req, x_api_key)] at clock reading [now].  An entry
    of the store has three keys, so [not entry] holds only when there is
    none; [req] is not used. *)
Definition brain (robot_id : string) (req : option string)
    (x_api_key : option string) (now : spec_float) (w : World)
  : outcome * World :=
  if bad_key x_api_key then (HTTPException 401 "Bad API key", w) else
  match LATEST w !! robot_id with
  | None => (Response (JDict [("cmds", JList [])]), w)
  | Some entry =>
      if stale now entry then (Response (JDict [("cmds", JList [])]), w)
      else
        let w' := log_call entry w in
        match ask_oracle entry with
        | inl msg =>
            (Response (JDict [("cmds", JList []); ("error", JStr msg)]), w')
        | inr cmds =>
            match validate cmds with
            | Ok safe => (Response (JDict [("cmds", JList safe)]), w')
            | Raise e => (Unhandled e, w')
            end
        end
  end.

(** [image.content_type not in ("image/jpeg","image/jpg","image/png")];
    an upload may come without a content type. *)
Definition allowed_type (content_type : option string) : option string :=
  match content_type with
  | Some ct =>
      if existsb (String.eqb ct) ["image/jpeg"; "image/jpg"; "image/png"]
      then Some ct else None
  | None => None
  end.

(** [upload(robot_id, image, x_api_key)] at clock reading [now], for an
    image of content type [content_type] and bytes [raw] *)
Definition upload (robot_id : string) (content_type : option string)
    (raw : list Byte.byte) (x_api_key : option string)
    (now : spec_float) (w : World) : outcome * World :=
  if bad_key x_api_key then (HTTPException 401 "Bad API key", w) else
  match allowed_type content_type with
  | None => (HTTPException 415 "Send JPEG/PNG", w)
  | Some ct =>
      if (1500000 <? Z.of_nat (length raw))
      then (HTTPException 413 "Image too large", w) else
      (Response (JDict [("ok", JBool true);
                        ("size", JInt (Z.of_nat (length raw)))]),
       {| LATEST := <[robot_id := {| b64 := b64encode raw; ts := now;
                                     mime := ct |}]> (LATEST w);
          oracle_calls := oracle_calls w |})
  end.

End Handlers.

(** ** What the claims say about commands *)

(** [lo <= n <= hi] for the exact value of a number; a NaN and the
    infinities are in no interval. *)
Definition in_range (lo hi : Z) (n : Num.num) : Prop :=
  match Num.val n with
  | Num.XFin q => (inject_Z lo <= q)%Q /\ (q <= inject_Z hi)%Q
  | _ => False
  end.

(** A field that holds a number of the interval. *)
Definition within (lo hi : Z) (v : json) : Prop :=
  match v with
  | JInt z => in_range lo hi (Num.NInt z)
  | JFloat f => in_range lo hi (Num.NFloat f)
  | _ => False
  end.

(** A field that holds an int of the interval. *)
Definition int_within (lo hi : Z) (v : json) : Prop :=
  match v with
  | JInt z => lo <= z <= hi
  | _ => False
  end.

(** The bounds of the fields of a MOVE and of a WAIT command. *)
Definition bounded_cmd (o : json) : Prop :=
  match o with
  | JList (JStr tag :: fields) =>
      if String.eqb tag "MOVE" then
        match fields with
        | [a0; a1; a2; a3; g; T] =>
            within (-150) 150 a0 /\ within (-10) 120 a1 /\
            within 0 130 a2 /\ within (-90) 90 a3 /\
            (g = JInt 0 \/ g = JInt 1) /\ int_within 1000 20000 T
        | _ => False
        end
      else if String.eqb tag "WAIT" then
        match fields with
        | [T] => int_within 0 5000 T
        | _ => False
        end
      else True
  | _ => True
  end.

(** The number of elements of a command, tag included. *)
Definition arity (tag : string) : option nat :=
  if String.eqb tag "MOVE" then Some 7%nat
  else if String.eqb tag "GRIP" then Some 2%nat
  else if String.eqb tag "WAIT" then Some 2%nat
  else if String.eqb tag "HOME" then Some 1%nat
  else if String.eqb tag "STOP" then Some 1%nat
  else if String.eqb tag "STATUS" then Some 1%nat
  else None.

(** A list that starts with one of the six tags and has its arity. *)
Definition well_formed (o : json) : Prop :=
  match o with
  | JList (JStr tag :: fields) => arity tag = Some (S (length fields))
  | _ => False
  end.

Section Relations.

Context `{StrParse}.

(** The command a tuple is turned into, case by case. *)
Inductive validated : json -> json -> Prop :=
| V_move x a0 a1 a2 a3 g T a0' a1' a2' a3' g' T' :
    eq_str x "MOVE" = true ->
    clip_joint a0 base = Ok a0' ->
    clip_joint a1 shoulder = Ok a1' ->
    clip_joint a2 elbow = Ok a2' ->
    clip_joint a3 wrist = Ok a3' ->
    grip_state g = Ok g' ->
    clamp_ms T 1000 20000 = Ok T' ->
    validated (JList [x; a0; a1; a2; a3; g; T])
              (JList [JStr "MOVE"; a0'; a1'; a2'; a3'; g'; T'])
| V_bare op rest :
    in_strs op ["HOME"; "STOP"; "STATUS"] = true ->
    validated (JList (op :: rest)) (JList [op])
| V_grip op x g' :
    eq_str op "GRIP" = true ->
    grip_state x = Ok g' ->
    validated (JList [op; x]) (JList [JStr "GRIP"; g'])
| V_wait op x T' :
    eq_str op "WAIT" = true ->
    clamp_ms x 0 5000 = Ok T' ->
    validated (JList [op; x]) (JList [JStr "WAIT"; T']).

(** [int(v)] and [float(v)] return. *)
Definition int_ok (v : json) : Prop := exists z, py_int v = Ok z.
Definition float_ok (v : json) : Prop := exists f, py_float v = Ok f.

(** The entries of a plan the loop gets past: the falsy values and the
    strings, which it skips, and the lists, provided the fields of a
    MOVE of seven elements and of a GRIP or WAIT of two are accepted by
    [float] and [int].  The other entries are the numbers other than
    zero, [true] and the dicts that are not empty. *)
Definition passable (c : json) : Prop :=
  match c with
  | JNull | JStr _ => True
  | JBool b => b = false
  | JInt z => z = 0
  | JFloat f => Num.float_truthy f = false
  | JDict kv => kv = []
  | JList [] => True
  | JList (op :: rest) =>
      if eq_str op "MOVE" && Nat.eqb (length rest) 6 then
        Forall float_ok (take 4 rest) /\ Forall int_ok (drop 4 rest)
      else if in_strs op ["HOME"; "STOP"; "STATUS"] then True
      else if (eq_str op "GRIP" || eq_str op "WAIT")
              && Nat.eqb (length rest) 1 then
        Forall int_ok rest
      else True
  end.

(** What the loop appends for an entry, when it gets past it. *)
Definition kept (c : json) : option json :=
  match validate_cmd c with
  | Ok r => r
  | Raise _ => None
  end.

End Relations.

(** A field of a response body. *)
Definition field (body : json) (k : string) : option json :=
  match body with
  | JDict kv => dict_get kv k
  | _ => None
  end.

(** The gripper state of a number: 0 when the number lies strictly
    between -1 and 1, where [int] truncates it to zero, and 1 otherwise. *)
Definition grip_of (n : Num.num) : Z :=
  if Num.lt (Num.NInt (-1)) n && Num.lt n (Num.NInt 1) then 0 else 1.

(** A number that is neither a NaN nor an infinity. *)
Definition finite_num (n : Num.num) : bool :=
  match n with
  | Num.NInt _ => true
  | Num.NFloat f => Num.is_finite f
  end.

(** A snapshot is stored for the robot and the binary64 difference of
    the reading now and the reading stored with it is at most 60. *)
Definition fresh (now : spec_float) (w : World) (robot_id : string) : Prop :=
  exists e, LATEST w !! robot_id = Some e /\
            Num.le (Num.NFloat (SFsub Num.prec Num.emax now (ts e)))
                   (Num.NInt 60) = true.

(** ** Fixtures for the examples *)

(** A parser of plain decimal literals: an optional sign and digits. *)
Fixpoint digits (s : string) (acc : Z) : option Z :=
  match s with
  | EmptyString => Some acc
  | String a s' =>
      let d := Z.of_N (N_of_ascii a) - 48 in
      if (0 <=? d) && (d <=? 9) then digits s' (10 * acc + d) else None
  end.

Definition decimal (s : string) : option Z :=
  match s with
  | EmptyString => None
  | String a EmptyString => digits s 0
  | String a s' =>
      if Ascii.eqb a "-" then option_map Z.opp (digits s' 0)
      else if Ascii.eqb a "+" then digits s' 0
      else digits s 0
  end.

(** The binary64 nearest to an int, an infinity beyond the range. *)
Definition nearest (z : Z) : spec_float :=
  binary_normalize Num.prec Num.emax z 0 false.

Definition plain_decimal : StrParse := {|
  int_of_str := decimal;
  float_of_str s := option_map nearest (decimal s)
|}.

(** A deployment with the key ["k"], whose planning service answers
    [reply] and whose parser turns any text into [plan]. *)
Definition stub (reply : string + string) (plan : string + json) : Runtime := {|
  PROXY_API_KEY := Some "k";
  responses_create _ _ := reply;
  json_loads _ := plan;
  b64encode _ := ""
|}.

(** The plan
    [[["MOVE",200,50,60,0,1,500],["WAIT",99999],["FOO"],["GRIP",5]]]
    and what the loop makes of it; 50.0 and 60.0 are floats. *)
Definition scenario_cmds : list json :=
  [JList [JStr "MOVE"; JInt 200; JInt 50; JInt 60; JInt 0; JInt 1;
          JInt 500];
   JList [JStr "WAIT"; JInt 99999];
   JList [JStr "FOO"];
   JList [JStr "GRIP"; JInt 5]].

Definition scenario : json := JList scenario_cmds.

Definition scenario_out : list json :=
  [JList [JStr "MOVE"; JInt 150;
          JFloat (S754_finite false 7036874417766400 (-47));
          JFloat (S754_finite false 8444249301319680 (-47));
          JFloat (S754_zero false); JInt 1; JInt 1000];
   JList [JStr "WAIT"; JInt 5000];
   JList [JStr "GRIP"; JInt 1]].

(** A store with one snapshot, taken at 1700000000 seconds. *)
Definition snapshot : Entry :=
  {| b64 := "aGk="; ts := nearest 1700000000; mime := "image/png" |}.

Definition one_robot : World :=
  {| LATEST := {["r1" := snapshot]}; oracle_calls := [] |}.

(** The service answers with a plan that parses to the scenario. *)
Definition answering : Runtime :=
  stub (inr "{}") (inr (JDict [("cmds", scenario)])).

(** The service times out. *)
Definition failing : Runtime := stub (inl "timed out") (inl "").

(** Clock readings 60 and 61 seconds after the snapshot. *)
Definition at_60 : spec_float := nearest 1700000060.
Definition at_61 : spec_float := nearest 1700000061.

(** 0.5 *)
Definition half : spec_float := S754_finite false 4503599627370496 (-53).

(** ** Further notions *)

(** Two numbers with the same exact value, as 150 and 150.0. *)
Definition same_value (a b : Num.num) : Prop :=
  match Num.val a, Num.val b with
  | Num.XFin p, Num.XFin q => (p == q)%Q
  | _, _ => False
  end.

(** A float strictly between the limits of a joint. *)
Definition inside (j : joint) (f : spec_float) : Prop :=
  Num.lt (Num.NInt (fst (ARM_LIMITS j))) (Num.NFloat f) = true /\
  Num.lt (Num.NFloat f) (Num.NInt (snd (ARM_LIMITS j))) = true.

(** An entry that gives no command: a falsy value, a string, a list whose
    first element is not a string, or a list whose tag is none of HOME,
    STOP and STATUS and does not have the arity of its tag (an unknown
    tag, a MOVE not of seven elements, a GRIP or WAIT not of two). *)
Definition omitted (c : json) : Prop :=
  match c with
  | JNull | JStr _ => True
  | JBool b => b = false
  | JInt z => z = 0
  | JFloat f => exists s, f = S754_zero s
  | JDict kv => kv = []
  | JList [] => True
  | JList (JStr tag :: rest) =>
      ~ In tag ["HOME"; "STOP"; "STATUS"] /\
      arity tag <> Some (S (length rest))
  | JList (_ :: _) => True
  end.

(** A value that is not a list, a string or a dict. *)
Definition not_iterable (cmds : json) : Prop :=
  match cmds with
  | JNull | JBool _ | JInt _ | JFloat _ => True
  | JStr _ | JList _ | JDict _ => False
  end.

Section Acceptance.

Context `{StrParse}.

(** The output for a list of entries: the command of each entry that
    gives one, in the order of the entries, the other entries omitted. *)
Inductive selects : list json -> list json -> Prop :=
| sel_nil : selects [] []
| sel_keep c o cs out :
    validated c o -> selects cs out -> selects (c :: cs) (o :: out)
| sel_drop c cs out :
    omitted c -> selects cs out -> selects (c :: cs) out.

(** What [int] accepts: an int, a bool, a float that is a number, a
    string that parses. *)
Definition int_accepted (v : json) : Prop :=
  match v with
  | JInt _ | JBool _ => True
  | JFloat f => Num.is_finite f = true
  | JStr s => is_Some (int_of_str s)
  | JNull | JList _ | JDict _ => False
  end.

(** What [float] accepts: a float, a bool, an int within the range of
    binary64, a string that parses. *)
Definition float_accepted (v : json) : Prop :=
  match v with
  | JFloat _ | JBool _ => True
  | JInt z => forall s, nearest z <> S754_infinity s
  | JStr s => is_Some (float_of_str s)
  | JNull | JList _ | JDict _ => False
  end.

End Acceptance.

Section TryBlock.

Context `{Runtime}.

(** The [try] block fails with message [msg]: the request raises, or
    [json.loads] raises on its text, or the plan parsed is not a dict and
    has no [get]. *)
Definition try_fails (e : Entry) (msg : string) : Prop :=
  responses_create (b64 e) (mime e) = inl msg \/
  exists text,
    responses_create (b64 e) (mime e) = inr text /\
    (json_loads text = inl msg \/
     exists plan,
       json_loads text = inr plan /\
       (forall kv, plan <> JDict kv) /\
       msg = ("'" ++ type_name plan ++ "' object has no attribute 'get'")%string).

End TryBlock.

(** [float(z)] returns a float of value [z]. *)
Definition exact_int (z : Z) : bool :=
  match Num.float_of_int z with
  | Ok f => match Num.float_val f with
            | Num.XFin q => Qeq_bool q (inject_Z z)
            | _ => false
            end
  | Raise _ => false
  end.

(** The ints from -150 to 150, which hold every limit of the table. *)
Definition table_ints : list Z :=
  map (fun n => Z.of_nat n - 150) (seq 0 301).

(** * Proofs *)

(** ** Comparisons and clamping *)

Lemma xlt_fin (p q : Q) :
  Num.xlt (Num.XFin p) (Num.XFin q) = true <-> (p < q)%Q.
Proof.
  simpl. rewrite Qlt_alt. destruct (p ?= q)%Q; split; congruence.
Qed.

Lemma xlt_fin_false (p q : Q) :
  Num.xlt (Num.XFin p) (Num.XFin q) = false <-> (q <= p)%Q.
Proof.
  rewrite <- not_true_iff_false, xlt_fin. split.
  - apply Qnot_lt_le.
  - apply Qle_not_lt.
Qed.

Lemma lt_int (a b : Z) : Num.lt (Num.NInt a) (Num.NInt b) = (a <? b).
Proof.
  unfold Num.lt. simpl Num.val.
  destruct (a <? b) eqn:E.
  - apply xlt_fin. rewrite <- Zlt_Qlt. lia.
  - apply xlt_fin_false. rewrite <- Zle_Qle. lia.
Qed.

(** A float strictly between two ints has a value, and the value is in
    the interval. *)
Lemma between_in_range (lo hi : Z) (n : Num.num) :
  Num.lt (Num.NInt lo) n = true ->
  Num.lt n (Num.NInt hi) = true ->
  in_range lo hi n.
Proof.
  unfold Num.lt, in_range. simpl (Num.val (Num.NInt _)).
  destruct (Num.val n) as [|[]|q]; simpl; try discriminate.
  intros Hlo Hhi. apply (xlt_fin _ q) in Hlo. apply (xlt_fin q) in Hhi.
  split; apply Qlt_le_weak; assumption.
Qed.

Lemma int_in_range (lo hi z : Z) :
  lo <= z <= hi -> in_range lo hi (Num.NInt z).
Proof.
  intros [? ?]. unfold in_range. simpl. rewrite <- !Zle_Qle. lia.
Qed.

(** The three results of [clip]: a bound, or the argument when it lies
    strictly between the bounds. *)
Lemma clip_cases (v : Num.num) (lo hi : Z) :
  clip v (Num.NInt lo) (Num.NInt hi) = Num.NInt lo \/
  clip v (Num.NInt lo) (Num.NInt hi) = Num.NInt hi \/
  (clip v (Num.NInt lo) (Num.NInt hi) = v /\
   Num.lt (Num.NInt lo) v = true /\ Num.lt v (Num.NInt hi) = true).
Proof.
  unfold clip, Num.max, Num.min, Num.gt.
  destruct (Num.lt v (Num.NInt hi)) eqn:Ehi.
  - destruct (Num.lt (Num.NInt lo) v) eqn:Elo; auto.
  - destruct (Num.lt (Num.NInt lo) (Num.NInt hi)); auto.
Qed.

Lemma clip_in_range (v : Num.num) (lo hi : Z) :
  lo <= hi -> in_range lo hi (clip v (Num.NInt lo) (Num.NInt hi)).
Proof.
  intros Hle.
  destruct (clip_cases v lo hi) as [-> | [-> | (-> & Hlo & Hhi)]].
  - apply int_in_range. lia.
  - apply int_in_range. lia.
  - apply between_in_range; assumption.
Qed.

(** Clamping an int between two ints. *)
Lemma clip_int (t lo hi : Z) :
  Num.max (Num.NInt lo) (Num.min (Num.NInt hi) (Num.NInt t)) =
  Num.NInt (Z.max lo (Z.min hi t)).
Proof.
  unfold Num.max, Num.min, Num.gt. rewrite lt_int.
  destruct (t <? hi) eqn:E1; rewrite lt_int.
  - destruct (lo <? t) eqn:E2; f_equal; lia.
  - destruct (lo <? hi) eqn:E2; f_equal; lia.
Qed.

(** ** One turn of the loop *)

Section ValidateCmd.

Context `{StrParse}.

Lemma eq_str_true (v : json) (s : string) :
  eq_str v s = true <-> v = JStr s.
Proof.
  destruct v; simpl; try (split; [discriminate | congruence]).
  rewrite String.eqb_eq. split; congruence.
Qed.

Lemma in_strs_bare (op : json) :
  in_strs op ["HOME"; "STOP"; "STATUS"] = true <->
  op = JStr "HOME" \/ op = JStr "STOP" \/ op = JStr "STATUS".
Proof.
  unfold in_strs. simpl. rewrite !orb_true_iff, !eq_str_true.
  intuition congruence.
Qed.

(** A character is none of the tags. *)
Lemma validate_cmd_str (s : string) : validate_cmd (JStr s) = Ok None.
Proof.
  destruct s as [|a s]; [reflexivity|].
  unfold validate_cmd, tag_and_len, in_strs. simpl.
  repeat match goal with
         | |- context [Ascii.eqb ?x ?y] => destruct (Ascii.eqb x y)
         end; reflexivity.
Qed.

Lemma validate_cmd_sound (c o : json) :
  validate_cmd c = Ok (Some o) -> validated c o.
Proof.
  destruct c as [| [] | z | f | s | l | kv];
    try discriminate.
  - unfold validate_cmd. simpl. destruct (z =? 0); discriminate.
  - unfold validate_cmd. simpl. destruct (Num.float_truthy f); discriminate.
  - rewrite validate_cmd_str. discriminate.
  - destruct l as [|op rest]; [discriminate|].
    unfold validate_cmd, tag_and_len.
    cbn [truthy negb py_getitem nth_error py_len rbind].
    destruct (eq_str op "MOVE") eqn:Emove.
    + cbn [rbind].
      destruct (Nat.eqb (length (op :: rest)) 7) eqn:Elen.
      * apply Nat.eqb_eq in Elen.
        do 7 (destruct rest as [|? rest]; try discriminate Elen).
        cbn [unpack7 py_iter rbind].
        destruct (clip_joint _ base) eqn:?; [|discriminate].
        destruct (clip_joint _ shoulder) eqn:?; [|discriminate].
        destruct (clip_joint _ elbow) eqn:?; [|discriminate].
        destruct (clip_joint _ wrist) eqn:?; [|discriminate].
        destruct (grip_state _) eqn:?; [|discriminate].
        destruct (clamp_ms _ _ _) eqn:?; [|discriminate].
        cbn [rbind]. intros [= <-]. now apply V_move.
      * apply eq_str_true in Emove. subst op.
        cbv. discriminate.
    + cbn [rbind].
      destruct (in_strs op _) eqn:Ebare.
      * intros [= <-]. now apply V_bare.
      * destruct (eq_str op "GRIP") eqn:Egrip.
        -- cbn [rbind].
           destruct (Nat.eqb (length (op :: rest)) 2) eqn:Elen.
           ++ apply Nat.eqb_eq in Elen.
              do 2 (destruct rest as [|? rest]; try discriminate Elen).
              cbn [py_getitem nth_error rbind].
              destruct (grip_state _) eqn:?; [|discriminate].
              cbn [rbind]. intros [= <-]. now apply V_grip.
           ++ apply eq_str_true in Egrip. subst op. cbv. discriminate.
        -- cbn [rbind].
           destruct (eq_str op "WAIT") eqn:Ewait; [|discriminate].
           cbn [rbind].
           destruct (Nat.eqb (length (op :: rest)) 2) eqn:Elen;
             [|discriminate].
           apply Nat.eqb_eq in Elen.
           do 2 (destruct rest as [|? rest]; try discriminate Elen).
           cbn [py_getitem nth_error rbind].
           destruct (clamp_ms _ _ _) eqn:?; [|discriminate].
           cbn [rbind]. intros [= <-]. now apply V_wait.
  - destruct kv; discriminate.
Qed.

Lemma validate_cmd_complete (c o : json) :
  validated c o -> validate_cmd c = Ok (Some o).
Proof.
  intros Hv. destruct Hv as
    [x a0 a1 a2 a3 g T a0' a1' a2' a3' g' T' Hx H0 H1 H2 H3 Hg HT
    | op rest Hop | op x g' Hop Hg | op x T' Hop HT].
  - unfold validate_cmd, tag_and_len.
    cbn [truthy negb py_getitem nth_error py_len rbind].
    rewrite Hx. cbn [rbind length Nat.eqb unpack7 py_iter].
    rewrite H0, H1, H2, H3, Hg, HT. reflexivity.
  - apply in_strs_bare in Hop. destruct Hop as [-> | [-> | ->]];
      reflexivity.
  - apply eq_str_true in Hop. subst op.
    unfold validate_cmd, tag_and_len.
    cbn [truthy negb py_getitem nth_error py_len rbind].
    change (eq_str (JStr "GRIP") "MOVE") with false.
    change (in_strs (JStr "GRIP") ["HOME"; "STOP"; "STATUS"]) with false.
    change (eq_str (JStr "GRIP") "GRIP") with true.
    cbn [rbind length Nat.eqb]. rewrite Hg. reflexivity.
  - apply eq_str_true in Hop. subst op.
    unfold validate_cmd, tag_and_len.
    cbn [truthy negb py_getitem nth_error py_len rbind].
    change (eq_str (JStr "WAIT") "MOVE") with false.
    change (in_strs (JStr "WAIT") ["HOME"; "STOP"; "STATUS"]) with false.
    change (eq_str (JStr "WAIT") "GRIP") with false.
    change (eq_str (JStr "WAIT") "WAIT") with true.
    cbn [rbind length Nat.eqb]. rewrite HT. reflexivity.
Qed.

Lemma validate_cmd_iff (c o : json) :
  validate_cmd c = Ok (Some o) <-> validated c o.
Proof.
  split; [apply validate_cmd_sound | apply validate_cmd_complete].
Qed.

End ValidateCmd.

(** ** The fields of a validated command *)

Section Fields.

Context `{StrParse}.

Lemma limits_ordered (j : joint) : fst (ARM_LIMITS j) <= snd (ARM_LIMITS j).
Proof. destruct j; simpl; lia. Qed.

Lemma within_to_json (lo hi : Z) (n : Num.num) :
  within lo hi (Num.to_json n) <-> in_range lo hi n.
Proof. destruct n; reflexivity. Qed.

Lemma clip_joint_within (j : joint) (a a' : json) :
  clip_joint a j = Ok a' ->
  within (fst (ARM_LIMITS j)) (snd (ARM_LIMITS j)) a'.
Proof.
  unfold clip_joint. destruct (py_float a) as [f|e]; [|discriminate].
  cbn [rbind]. intros [= <-]. apply within_to_json, clip_in_range.
  apply limits_ordered.
Qed.

Lemma grip_state_bit (g g' : json) :
  grip_state g = Ok g' -> g' = JInt 0 \/ g' = JInt 1.
Proof.
  unfold grip_state. destruct (py_int g) as [z|e]; [|discriminate].
  cbn [rbind]. intros [= <-]. destruct (z =? 0); auto.
Qed.

Lemma clamp_ms_eq (T : json) (lo hi : Z) :
  clamp_ms T lo hi = (t <- py_int T ;; Ok (JInt (Z.max lo (Z.min hi t)))).
Proof.
  unfold clamp_ms. destruct (py_int T) as [t|e]; [|reflexivity].
  cbn [rbind]. rewrite clip_int. reflexivity.
Qed.

Lemma clamp_ms_within (T T' : json) (lo hi : Z) :
  lo <= hi -> clamp_ms T lo hi = Ok T' -> int_within lo hi T'.
Proof.
  intros Hle. rewrite clamp_ms_eq.
  destruct (py_int T) as [t|e]; [|discriminate].
  cbn [rbind]. intros [= <-]. simpl. lia.
Qed.

(** Validating a validated field changes nothing. *)
Lemma clip_joint_again (j : joint) (a a' : json) :
  clip_joint a j = Ok a' -> clip_joint a' j = Ok a'.
Proof.
  unfold clip_joint at 1. destruct (py_float a) as [f|e]; [|discriminate].
  cbn [rbind]. intros [= <-].
  destruct (clip_cases (Num.NFloat f) (fst (ARM_LIMITS j))
                       (snd (ARM_LIMITS j)))
    as [-> | [-> | (-> & Hlo & Hhi)]].
  - destruct j; vm_compute; reflexivity.
  - destruct j; vm_compute; reflexivity.
  - unfold clip_joint. cbn [Num.to_json py_float rbind].
    unfold clip, Num.max, Num.min, Num.gt. rewrite Hhi, Hlo. reflexivity.
Qed.

Lemma grip_state_again (g g' : json) :
  grip_state g = Ok g' -> grip_state g' = Ok g'.
Proof.
  intros Hg. destruct (grip_state_bit _ _ Hg) as [-> | ->]; reflexivity.
Qed.

Lemma clamp_ms_again (T T' : json) (lo hi : Z) :
  lo <= hi -> clamp_ms T lo hi = Ok T' -> clamp_ms T' lo hi = Ok T'.
Proof.
  intros Hle. rewrite !clamp_ms_eq.
  destruct (py_int T) as [t|e]; [|discriminate].
  cbn [rbind]. intros [= <-]. cbn [py_int rbind]. do 2 f_equal. lia.
Qed.

Lemma validated_bounded (c o : json) : validated c o -> bounded_cmd o.
Proof.
  intros [x a0 a1 a2 a3 g T a0' a1' a2' a3' g' T' Hx H0 H1 H2 H3 Hg HT
         | op rest Hop | op x g' Hop Hg | op x T' Hop HT].
  - cbn. repeat split.
    + apply (clip_joint_within base _ _ H0).
    + apply (clip_joint_within shoulder _ _ H1).
    + apply (clip_joint_within elbow _ _ H2).
    + apply (clip_joint_within wrist _ _ H3).
    + apply (grip_state_bit _ _ Hg).
    + apply (clamp_ms_within T); [lia | assumption].
  - apply in_strs_bare in Hop. destruct Hop as [-> | [-> | ->]]; exact I.
  - exact I.
  - cbn. apply (clamp_ms_within x); [lia | assumption].
Qed.

Lemma validated_well_formed (c o : json) : validated c o -> well_formed o.
Proof.
  intros [x a0 a1 a2 a3 g T a0' a1' a2' a3' g' T' Hx H0 H1 H2 H3 Hg HT
         | op rest Hop | op x g' Hop Hg | op x T' Hop HT];
    try reflexivity.
  apply in_strs_bare in Hop. destruct Hop as [-> | [-> | ->]]; reflexivity.
Qed.

Lemma validated_again (c o : json) : validated c o -> validated o o.
Proof.
  intros [x a0 a1 a2 a3 g T a0' a1' a2' a3' g' T' Hx H0 H1 H2 H3 Hg HT
         | op rest Hop | op x g' Hop Hg | op x T' Hop HT].
  - apply V_move; try reflexivity;
      eauto using clip_joint_again, grip_state_again.
    apply (clamp_ms_again T); [lia | assumption].
  - now apply V_bare.
  - apply V_grip; [reflexivity | eauto using grip_state_again].
  - apply V_wait; [reflexivity|].
    apply (clamp_ms_again x); [lia | assumption].
Qed.

End Fields.

(** ** The loop *)

Section Loop.

Context `{StrParse}.

(** The loop returns when every turn does, and then it has appended,
    in order, what the turns kept. *)
Lemma validate_loop_spec (cs safe out : list json) :
  validate_loop cs safe = Ok out <->
  Forall (fun c => exists r, validate_cmd c = Ok r) cs /\
  out = safe ++ omap kept cs.
Proof.
  revert safe out. induction cs as [|c cs IH]; intros safe out; simpl.
  - rewrite app_nil_r. split.
    + intros [= ->]. split; [constructor | reflexivity].
    + intros [_ ->]. reflexivity.
  - rewrite Forall_cons. unfold kept at 1.
    destruct (validate_cmd c) as [r|e] eqn:Ec; cbn [rbind].
    + rewrite IH.
      replace (match r with Some x => safe ++ [x] | None => safe end
               ++ omap kept cs)
        with (safe ++ match r with
                      | Some y => y :: omap kept cs
                      | None => omap kept cs
                      end)
        by (destruct r; simpl; [rewrite <- app_assoc|]; reflexivity).
      intuition eauto.
    + split; [discriminate|]. intros [[[r Hr] _] _]. discriminate.
Qed.

Lemma kept_validated (c o : json) : kept c = Some o <-> validated c o.
Proof.
  rewrite <- validate_cmd_iff. unfold kept.
  destruct (validate_cmd c); split; congruence.
Qed.

(** What is kept is a subsequence of the entries, one command for each
    entry of it. *)
Lemma omap_kept_sublist (cs : list json) :
  exists ks, sublist ks cs /\ Forall2 validated ks (omap kept cs).
Proof.
  induction cs as [|c cs (ks & Hsub & Hall)]; simpl.
  - exists []. split; constructor.
  - destruct (kept c) as [o|] eqn:Ek.
    + exists (c :: ks). split; [now constructor|].
      constructor; [now apply kept_validated | assumption].
    + exists ks. split; [now constructor | assumption].
Qed.

Lemma validate_spec (cmds : json) (out : list json) :
  validate cmds = Ok out <->
  exists cs, py_iter cmds = Ok cs /\
             Forall (fun c => exists r, validate_cmd c = Ok r) cs /\
             out = omap kept cs.
Proof.
  unfold validate. destruct (py_iter cmds) as [cs|e]; cbn [rbind].
  - rewrite validate_loop_spec. simpl. split.
    + intros [? ?]. eauto.
    + intros (cs' & [= <-] & ? & ?). auto.
  - split; [discriminate | intros (cs' & [=] & _)].
Qed.

Lemma validate_Forall (P : json -> Prop) (cmds : json) (out : list json) :
  (forall c o, validated c o -> P o) ->
  validate cmds = Ok out -> Forall P out.
Proof.
  intros HP Hv. apply validate_spec in Hv as (cs & _ & _ & ->).
  destruct (omap_kept_sublist cs) as (ks & _ & Hall).
  induction Hall; constructor; eauto.
Qed.

Lemma validate_loop_fixed (out safe : list json) :
  Forall (fun o => validated o o) out ->
  validate_loop out safe = Ok (safe ++ out).
Proof.
  intros Hall. apply validate_loop_spec. split.
  - eapply Forall_impl; [exact Hall|]. simpl. intros o Ho.
    apply validate_cmd_complete in Ho. eauto.
  - f_equal. induction Hall as [|o out Ho _ IH]; simpl; [reflexivity|].
    apply kept_validated in Ho. rewrite Ho. f_equal. exact IH.
Qed.

End Loop.

(** ** The validator: bounds, shape, order, idempotence *)

Section ValidatorClaims.

Context `{StrParse}.

(** C1.  Whatever the raw plan, when the loop returns, every MOVE
    command of its output has its base, shoulder, elbow and wrist
    fields in [-150,150], [-10,120], [0,130] and [-90,90], its gripper
    state 0 or 1 and an int duration in [1000,20000], and every WAIT
    command has an int duration in [0,5000]. *)
Theorem validate_bounds (cmds : json) (out : list json) :
  validate cmds = Ok out -> Forall bounded_cmd out.
Proof. apply validate_Forall, validated_bounded. Qed.

(** C9.  Every command of the output starts with one of the six tags
    and has exactly the number of elements of its tag: seven for MOVE,
    two for GRIP and WAIT, one for HOME, STOP and STATUS. *)
Theorem validate_well_formed (cmds : json) (out : list json) :
  validate cmds = Ok out -> Forall well_formed out.
Proof. apply validate_Forall, validated_well_formed. Qed.

(** C7.  The output is the image of a subsequence of the entries of the
    plan: the entries kept, in the order of the plan, each giving one
    command, and nothing else. *)
Theorem validate_preserves_order (cmds : json) (out : list json) :
  validate cmds = Ok out ->
  exists cs ks,
    py_iter cmds = Ok cs /\
    sublist ks cs /\
    Forall2 validated ks out /\
    out = omap kept cs.
Proof.
  intros Hv. apply validate_spec in Hv as (cs & Hcs & _ & ->).
  destruct (omap_kept_sublist cs) as (ks & Hsub & Hall).
  exists cs, ks. auto.
Qed.

(** C8.  The output of the loop, given back to it as a plan, comes out
    unchanged. *)
Theorem validate_idempotent (cmds : json) (out : list json) :
  validate cmds = Ok out -> validate (JList out) = Ok out.
Proof.
  intros Hv. unfold validate. cbn [py_iter rbind].
  apply (validate_loop_fixed out []).
  apply (validate_Forall (fun o => validated o o) cmds); [|assumption].
  apply validated_again.
Qed.

End ValidatorClaims.

Lemma validate_bounds_witness : Forall bounded_cmd scenario_out.
Proof.
  apply (@validate_bounds plain_decimal scenario). vm_compute. reflexivity.
Defined.

Lemma validate_well_formed_witness : Forall well_formed scenario_out.
Proof.
  apply (@validate_well_formed plain_decimal scenario).
  vm_compute. reflexivity.
Defined.

Lemma validate_preserves_order_witness :
  exists cs ks,
    @py_iter scenario = Ok cs /\
    sublist ks cs /\
    Forall2 (@validated plain_decimal) ks scenario_out /\
    scenario_out = omap (@kept plain_decimal) cs.
Proof.
  apply (@validate_preserves_order plain_decimal scenario).
  vm_compute. reflexivity.
Defined.

Lemma validate_idempotent_witness :
  @validate plain_decimal (JList scenario_out) = Ok scenario_out.
Proof.
  apply (@validate_idempotent plain_decimal scenario).
  vm_compute. reflexivity.
Defined.

(** ** When the loop raises *)

Section Raising.

Context `{StrParse}.

Lemma clip_joint_ok (j : joint) (a : json) :
  (exists a', clip_joint a j = Ok a') <-> float_ok a.
Proof.
  unfold clip_joint, float_ok. destruct (py_float a) as [f|e]; cbn [rbind].
  - split; eauto.
  - split; intros [? [=]].
Qed.

Lemma grip_state_ok (g : json) :
  (exists g', grip_state g = Ok g') <-> int_ok g.
Proof.
  unfold grip_state, int_ok. destruct (py_int g) as [z|e]; cbn [rbind].
  - split; eauto.
  - split; intros [? [=]].
Qed.

Lemma clamp_ms_ok (T : json) (lo hi : Z) :
  (exists T', clamp_ms T lo hi = Ok T') <-> int_ok T.
Proof.
  rewrite clamp_ms_eq. unfold int_ok.
  destruct (py_int T) as [z|e]; cbn [rbind].
  - split; eauto.
  - split; intros [? [=]].
Qed.

Lemma move_returns (a0 a1 a2 a3 g T : json) :
  (exists r,
     (a0' <- clip_joint a0 base ;;
      a1' <- clip_joint a1 shoulder ;;
      a2' <- clip_joint a2 elbow ;;
      a3' <- clip_joint a3 wrist ;;
      g' <- grip_state g ;;
      T' <- clamp_ms T 1000 20000 ;;
      Ok (Some (JList [JStr "MOVE"; a0'; a1'; a2'; a3'; g'; T']))) = Ok r)
  <-> Forall float_ok [a0; a1; a2; a3] /\ Forall int_ok [g; T].
Proof.
  rewrite !Forall_cons, !Forall_nil.
  rewrite <- (clip_joint_ok base a0), <- (clip_joint_ok shoulder a1),
    <- (clip_joint_ok elbow a2), <- (clip_joint_ok wrist a3),
    <- (grip_state_ok g), <- (clamp_ms_ok T 1000 20000).
  destruct (clip_joint a0 base); cbn [rbind];
    [|split; [intros [? [=]] | intros [[[? [=]] _] _]]].
  destruct (clip_joint a1 shoulder); cbn [rbind];
    [|split; [intros [? [=]] | intros [(_ & [? [=]] & _) _]]].
  destruct (clip_joint a2 elbow); cbn [rbind];
    [|split; [intros [? [=]] | intros [(_ & _ & [? [=]] & _) _]]].
  destruct (clip_joint a3 wrist); cbn [rbind];
    [|split; [intros [? [=]] | intros [(_ & _ & _ & [? [=]] & _) _]]].
  destruct (grip_state g); cbn [rbind];
    [|split; [intros [? [=]] | intros [_ ([? [=]] & _)]]].
  destruct (clamp_ms T 1000 20000); cbn [rbind];
    [|split; [intros [? [=]] | intros [_ (_ & [? [=]] & _)]]].
  intuition eauto.
Qed.

Ltac skipped :=
  split; [intros _; first [exact I | reflexivity]
         | intros _; eexists; reflexivity].

(** The entries the loop gets past are the passable ones. *)
Lemma validate_cmd_returns (c : json) :
  (exists r, validate_cmd c = Ok r) <-> passable c.
Proof.
  destruct c as [| [] | z | f | s | l | kv].
  - skipped.
  - split; [intros [? [=]] | discriminate].
  - skipped.
  - unfold validate_cmd. simpl. destruct (Z.eqb_spec z 0) as [->|Hz].
    + skipped.
    + split; [intros [? [=]] | contradiction].
  - destruct f;
      first [skipped | split; [intros [? [=]] | discriminate]].
  - rewrite validate_cmd_str. split; [exact (fun _ => I) | eauto].
  - destruct l as [|op rest]; [skipped|].
    unfold validate_cmd, tag_and_len, passable.
    cbn [truthy negb py_getitem nth_error py_len rbind length Nat.eqb].
    destruct (eq_str op "MOVE") eqn:Emove; cbn [rbind andb].
    + destruct (Nat.eqb (length rest) 6) eqn:Elen.
      * apply Nat.eqb_eq in Elen.
        do 7 (destruct rest as [|? rest]; try discriminate Elen).
        cbn [unpack7 py_iter rbind]. apply move_returns.
      * apply eq_str_true in Emove. subst op. cbn.
        skipped.
    + destruct (in_strs op _) eqn:Ebare.
      * skipped.
      * destruct (eq_str op "GRIP") eqn:Egrip; cbn [rbind orb andb].
        -- destruct (Nat.eqb (length rest) 1) eqn:Elen.
           ++ apply Nat.eqb_eq in Elen.
              do 2 (destruct rest as [|? rest]; try discriminate Elen).
              cbn [py_getitem nth_error rbind].
              rewrite Forall_cons, Forall_nil, <- grip_state_ok.
              destruct (grip_state _); cbn [rbind].
              ** intuition eauto.
              ** split; [intros [? [=]] | intros [[? [=]] _]].
           ++ apply eq_str_true in Egrip. subst op. cbn.
              skipped.
        -- destruct (eq_str op "WAIT") eqn:Ewait; cbn [rbind andb].
           ++ destruct (Nat.eqb (length rest) 1) eqn:Elen.
              ** apply Nat.eqb_eq in Elen.
                 do 2 (destruct rest as [|? rest]; try discriminate Elen).
                 cbn [py_getitem nth_error rbind].
                 rewrite Forall_cons, Forall_nil,
                   <- (clamp_ms_ok _ 0 5000).
                 destruct (clamp_ms _ _ _); cbn [rbind].
                 --- intuition eauto.
                 --- split; [intros [? [=]] | intros [[? [=]] _]].
              ** skipped.
           ++ skipped.
  - destruct kv; [skipped|].
    split; [intros [? [=]] | discriminate].
Qed.

End Raising.

(** ** The gripper state of a number *)

Lemma grip_of_int (z : Z) :
  grip_of (Num.NInt z) = if z =? 0 then 0 else 1.
Proof.
  unfold grip_of. rewrite !lt_int.
  destruct (Z.eqb_spec z 0), (Z.ltb_spec (-1) z), (Z.ltb_spec z 1);
    simpl; lia.
Qed.

(** [int] truncates a float to zero exactly when the float lies strictly
    between -1 and 1. *)
Lemma trunc_zero (s : bool) (m : positive) (e : Z) :
  Num.trunc s m e = 0 <->
  (inject_Z (-1) < Num.finite_Q s m e /\ Num.finite_Q s m e < inject_Z 1)%Q.
Proof.
  unfold Num.trunc, Num.finite_Q, Qlt. destruct e as [|p|p]; simpl Qnum;
    simpl Qden.
  - destruct s; simpl; lia.
  - assert (0 < 2 ^ Z.pos p) by (apply Z.pow_pos_nonneg; lia).
    destruct s; simpl cond_Zopp; nia.
  - rewrite Pos2Z.inj_pow.
    assert (Hpow : 0 < 2 ^ Z.pos p) by (apply Z.pow_pos_nonneg; lia).
    assert (Hdiv : Z.pos m / 2 ^ Z.pos p = 0 <-> Z.pos m < 2 ^ Z.pos p).
    { rewrite Z.div_small_iff by lia. lia. }
    destruct s; simpl cond_Zopp; lia.
Qed.

Lemma grip_of_finite (s : bool) (m : positive) (e : Z) :
  grip_of (Num.NFloat (S754_finite s m e)) =
  if Num.trunc s m e =? 0 then 0 else 1.
Proof.
  unfold grip_of, Num.lt. simpl Num.val.
  destruct (Z.eqb_spec (Num.trunc s m e) 0) as [Hz|Hz].
  - apply trunc_zero in Hz as [Hlo Hhi].
    apply xlt_fin in Hlo, Hhi. rewrite Hlo, Hhi. reflexivity.
  - destruct (Num.xlt _ (Num.XFin (Num.finite_Q s m e))) eqn:Hlo;
      [|reflexivity].
    destruct (Num.xlt (Num.XFin (Num.finite_Q s m e)) _) eqn:Hhi;
      [|reflexivity].
    apply xlt_fin in Hlo, Hhi. exfalso. apply Hz, trunc_zero. auto.
Qed.

Section Gripper.

Context `{StrParse}.

Lemma grip_state_number (n : Num.num) :
  finite_num n = true ->
  grip_state (Num.to_json n) = Ok (JInt (grip_of n)).
Proof.
  destruct n as [z|[s| |  |s m e]]; try discriminate; intros _.
  - unfold grip_state. cbn [Num.to_json py_int rbind].
    rewrite grip_of_int. destruct (z =? 0); reflexivity.
  - destruct s; reflexivity.
  - unfold grip_state.
    cbn [Num.to_json py_int Num.int_of_float rbind].
    rewrite grip_of_finite. destruct (Num.trunc s m e =? 0); reflexivity.
Qed.

End Gripper.

(** ** The validator: raising, bare tags, gripper *)

Section DiscardClaims.

Context `{StrParse}.

(** C3, as the code has it.  A tuple whose tag is HOME, STOP or STATUS
    is kept whatever its arity: the loop appends the one-element command
    of its tag and drops the other elements. *)
Theorem bare_tag_any_arity (tag : string) (rest : list json) :
  In tag ["HOME"; "STOP"; "STATUS"] ->
  validate_cmd (JList (JStr tag :: rest)) = Ok (Some (JList [JStr tag])) /\
  validate (JList [JList (JStr tag :: rest)]) = Ok [JList [JStr tag]].
Proof.
  intros [<- | [<- | [<- | []]]]; split; reflexivity.
Qed.

(** C4, as the code has it.  For a state that is a number, neither a
    NaN nor an infinity, a GRIP tuple of two elements gives
    [["GRIP", s]] and a MOVE tuple of seven elements that is kept has
    gripper field [s], where [s] is 0 when the number lies strictly
    between -1 and 1 and 1 otherwise; for an int that is 0 for zero and 1
    for any other. *)
Theorem grip_truncates (n : Num.num) :
  finite_num n = true ->
  validate_cmd (JList [JStr "GRIP"; Num.to_json n]) =
    Ok (Some (JList [JStr "GRIP"; JInt (grip_of n)])) /\
  (forall a0 a1 a2 a3 T o,
      validate_cmd (JList [JStr "MOVE"; a0; a1; a2; a3; Num.to_json n; T])
        = Ok (Some o) ->
      exists a0' a1' a2' a3' T',
        o = JList [JStr "MOVE"; a0'; a1'; a2'; a3'; JInt (grip_of n); T']) /\
  match n with
  | Num.NInt z => grip_of n = if z =? 0 then 0 else 1
  | Num.NFloat _ => True
  end.
Proof.
  intros Hn. pose proof (grip_state_number n Hn) as Hg. repeat split.
  - apply validate_cmd_complete. now apply V_grip.
  - intros a0 a1 a2 a3 T o Ho. apply validate_cmd_sound in Ho.
    inversion Ho as
      [x b0 b1 b2 b3 g T0 a0' a1' a2' a3' g' T' Hx H0 H1 H2 H3 Hg' HT
      | op rest Hop | |]; subst.
    + rewrite Hg in Hg'. injection Hg' as <-. eauto 6.
    + discriminate Hop.
  - destruct n; [apply grip_of_int | exact I].
Qed.

End DiscardClaims.

(** The plan [[["WAIT", null]]] makes the loop raise. *)
Lemma wait_null_raises :
  @validate plain_decimal (JList [JList [JStr "WAIT"; JNull]])
  = Raise TypeError.
Proof. reflexivity. Qed.

Lemma bare_tag_any_arity_witness :
  @validate_cmd plain_decimal (JList [JStr "STOP"; JInt 1; JInt 2])
  = Ok (Some (JList [JStr "STOP"])) /\
  @validate plain_decimal (JList [JList [JStr "STOP"; JInt 1; JInt 2]])
  = Ok [JList [JStr "STOP"]].
Proof.
  apply (@bare_tag_any_arity plain_decimal "STOP" [JInt 1; JInt 2]).
  simpl. auto.
Defined.

(** [["HOME", 1]] has two elements and is kept. *)
Lemma home_of_arity_two_kept :
  @validate plain_decimal (JList [JList [JStr "HOME"; JInt 1]])
  = Ok [JList [JStr "HOME"]].
Proof. reflexivity. Qed.

Lemma grip_truncates_witness :
  @validate_cmd plain_decimal (JList [JStr "GRIP"; JFloat half])
  = Ok (Some (JList [JStr "GRIP"; JInt 0])).
Proof.
  apply (@grip_truncates plain_decimal (Num.NFloat half)). reflexivity.
Defined.

(** A state of 0.5 gives [["GRIP", 0]]. *)
Lemma grip_half_is_zero :
  @validate plain_decimal (JList [JList [JStr "GRIP"; JFloat half]])
  = Ok [JList [JStr "GRIP"; JInt 0]].
Proof. reflexivity. Qed.

(** ** The age of a snapshot *)

Lemma iter_pos_invariant {A} (P : A -> Prop) (f : A -> A) :
  (forall x, P x -> P (f x)) ->
  forall n x, P x -> P (SpecFloat.iter_pos f n x).
Proof.
  intros Hf. induction n as [n IH|n IH|]; intros x Hx; simpl; auto.
Qed.

Lemma shr_1_nonneg (mrs : shr_record) :
  0 <= shr_m mrs -> 0 <= shr_m (shr_1 mrs).
Proof.
  destruct mrs as [m r s]. destruct m as [|[p|p|]|p]; simpl; lia.
Qed.

Lemma shr_fexp_nonneg (prec emax m e : Z) (l : location) :
  0 <= m -> 0 <= shr_m (fst (shr_fexp prec emax m e l)).
Proof.
  intros Hm. unfold shr_fexp, shr.
  assert (H0 : 0 <= shr_m (shr_record_of_loc m l))
    by (destruct l as [|[]]; exact Hm).
  destruct (fexp prec emax (Zdigits2 m + e) - e); simpl; try exact H0.
  apply iter_pos_invariant; [apply shr_1_nonneg | exact H0].
Qed.

Lemma round_nearest_even_nonneg (m : Z) (l : location) :
  0 <= m -> 0 <= round_nearest_even m l.
Proof.
  intros Hm. destruct l as [|[]]; simpl; try lia.
  destruct (Z.even m); lia.
Qed.

(** Rounding gives a zero, a finite float or an infinity. *)
Lemma binary_round_aux_not_nan (prec emax : Z) (sx : bool) (mx ex : Z)
    (lx : location) :
  0 <= mx -> binary_round_aux prec emax sx mx ex lx <> S754_nan.
Proof.
  intros Hm. unfold binary_round_aux.
  pose proof (shr_fexp_nonneg prec emax mx ex lx Hm) as H1.
  destruct (shr_fexp prec emax mx ex lx) as [mrs' e']. simpl in H1.
  pose proof (shr_fexp_nonneg prec emax
                (round_nearest_even (shr_m mrs') (loc_of_shr_record mrs'))
                e' loc_Exact
                (round_nearest_even_nonneg _ _ H1)) as H2.
  destruct (shr_fexp prec emax _ e' loc_Exact) as [mrs'' e'']. simpl in H2.
  destruct (shr_m mrs'') as [|m|m]; [discriminate | | lia].
  destruct (e'' <=? emax - prec); discriminate.
Qed.

Lemma binary_normalize_not_nan (prec emax m e : Z) (sz : bool) :
  binary_normalize prec emax m e sz <> S754_nan.
Proof.
  unfold binary_normalize, binary_round.
  destruct m as [|m|m]; [discriminate| |];
    destruct (shl_align _ _ _) as [mz ez];
    apply binary_round_aux_not_nan; lia.
Qed.

(** The difference of two clock readings is not a NaN. *)
Lemma SFsub_not_nan (x y : spec_float) :
  Num.is_finite x = true -> Num.is_finite y = true ->
  SFsub Num.prec Num.emax x y <> S754_nan.
Proof.
  destruct x as [sx| | |sx mx ex], y as [sy| | |sy my ey];
    try discriminate; intros _ _; simpl.
  - destruct sx, sy; discriminate.
  - apply binary_normalize_not_nan.
Qed.

(** For a number that is not a NaN, [x > k] is the negation of [x <= k]. *)
Lemma gt_not_le (f : spec_float) (k : Z) :
  f <> S754_nan ->
  Num.gt (Num.NFloat f) (Num.NInt k) = negb (Num.le (Num.NFloat f) (Num.NInt k)).
Proof.
  intros Hf. unfold Num.gt, Num.lt, Num.le. simpl (Num.val (Num.NInt k)).
  destruct f as [s|[]| |s m e]; try reflexivity; try contradiction.
  - simpl. rewrite <- (Qcompare_antisym (inject_Z k) 0).
    destruct (inject_Z k ?= 0)%Q; reflexivity.
  - simpl. rewrite <- (Qcompare_antisym (inject_Z k) (Num.finite_Q s m e)).
    destruct (inject_Z k ?= Num.finite_Q s m e)%Q; reflexivity.
Qed.

(** ** The handler *)

Lemma cons_neq {A} (x : A) (l : list A) : x :: l <> l.
Proof.
  intros Heq. apply (f_equal (@length A)) in Heq. simpl in Heq. lia.
Qed.

Section BrainClaims.

Context `{StrParse} `{Runtime}.

(** Past the key check and with a snapshot that is not stale, the
    planning service is asked, whatever comes of it. *)
Lemma brain_asks (rid : string) (req key : option string)
    (now : spec_float) (w : World) (e : Entry) :
  bad_key key = false ->
  LATEST w !! rid = Some e ->
  stale now e = false ->
  snd (brain rid req key now w) = log_call e w.
Proof.
  intros Hkey He Hst. unfold brain. rewrite Hkey, He, Hst.
  destruct (ask_oracle e); [reflexivity|].
  destruct (validate _); reflexivity.
Qed.

Lemma brain_skips (rid : string) (req key : option string)
    (now : spec_float) (w : World) :
  bad_key key = false ->
  (forall e, LATEST w !! rid = Some e -> stale now e = true) ->
  brain rid req key now w = (Response (JDict [("cmds", JList [])]), w).
Proof.
  intros Hkey Hst. unfold brain. rewrite Hkey.
  destruct (LATEST w !! rid) as [e|]; [|reflexivity].
  rewrite (Hst e eq_refl). reflexivity.
Qed.

Lemma stale_not_le (now : spec_float) (e : Entry) :
  Num.is_finite now = true -> Num.is_finite (ts e) = true ->
  stale now e
  = negb (Num.le (Num.NFloat (SFsub Num.prec Num.emax now (ts e)))
                 (Num.NInt 60)).
Proof.
  intros Hnow Hts. apply gt_not_le, SFsub_not_nan; assumption.
Qed.

(** C5.  Past the key check and with clock readings that are numbers,
    the handler sends the stored snapshot to the planning service if and
    only if the robot has an entry whose age is at most 60, the age being
    the binary64 difference of the reading now and the reading stored
    with the entry; otherwise it answers [{"cmds": []}] and leaves the
    record of requests to the service as it was. *)
Theorem brain_freshness (rid : string) (req key : option string)
    (now : spec_float) (w : World) :
  bad_key key = false ->
  Num.is_finite now = true ->
  (forall e, LATEST w !! rid = Some e -> Num.is_finite (ts e) = true) ->
  (fresh now w rid <->
   exists e, LATEST w !! rid = Some e /\
             oracle_calls (snd (brain rid req key now w))
             = (b64 e, mime e) :: oracle_calls w) /\
  (~ fresh now w rid ->
   brain rid req key now w = (Response (JDict [("cmds", JList [])]), w)).
Proof.
  intros Hkey Hnow Hts. split; [split|].
  - intros (e & He & Hle). exists e. split; [assumption|].
    rewrite (brain_asks rid req key now w e); auto.
    rewrite stale_not_le, Hle; auto.
  - intros (e & He & Hcalls). exists e. split; [assumption|].
    destruct (Num.le _ _) eqn:Hle; [reflexivity|]. exfalso.
    rewrite brain_skips in Hcalls;
      [symmetry in Hcalls; now apply cons_neq in Hcalls | auto |].
    intros e' He'. rewrite He in He'. injection He' as <-.
    rewrite stale_not_le, Hle; auto.
  - intros Hnf. apply brain_skips; [assumption|].
    intros e He. rewrite stale_not_le; auto.
    destruct (Num.le _ _) eqn:Hle; [|reflexivity].
    exfalso. apply Hnf. exists e. auto.
Qed.

(** The three ways the [try] block fails: the request, the parser, a
    plan that is not a dict. *)
Lemma ask_oracle_fails (e : Entry) (msg : string) :
  ask_oracle e = inl msg <->
  responses_create (b64 e) (mime e) = inl msg \/
  (exists text, responses_create (b64 e) (mime e) = inr text /\
                (json_loads text = inl msg \/
                 exists plan, json_loads text = inr plan /\
                              plan_cmds plan = inl msg)).
Proof.
  unfold ask_oracle.
  destruct (responses_create _ _) as [m|text].
  { split; [intros Hm; left; congruence|].
    intros [Hm | (t & Ht & _)]; [congruence | discriminate Ht]. }
  destruct (json_loads text) as [m|plan] eqn:Hload.
  - split.
    + intros Hm. right. exists text. split; [reflexivity|].
      left. congruence.
    + intros [Hx | (t & Ht & [Hm | (p & Hp & _)])];
        [discriminate Hx | injection Ht as <-; congruence
        | injection Ht as <-; congruence].
  - split.
    + intros Hm. right. exists text. split; [reflexivity|].
      right. exists plan. auto.
    + intros [Hx | (t & Ht & [Hm | (p & Hp & Hm)])];
        [discriminate Hx | injection Ht as <-; congruence|].
      injection Ht as <-. rewrite Hload in Hp. injection Hp as <-.
      exact Hm.
Qed.

Lemma try_fails_ask (e : Entry) (msg : string) :
  ask_oracle e = inl msg <-> try_fails e msg.
Proof.
  rewrite ask_oracle_fails. unfold try_fails.
  apply or_iff_compat_l. split.
  - intros (text & Ht & [Hm | (plan & Hp & Hm)]); exists text;
      (split; [assumption|]); [left; assumption|].
    right. exists plan. split; [assumption|].
    destruct plan; try discriminate Hm;
      (split; [intros kv; discriminate|]);
      simpl in Hm; injection Hm as <-; reflexivity.
  - intros (text & Ht & [Hm | (plan & Hp & Hnd & ->)]); exists text;
      (split; [assumption|]); [left; assumption|].
    right. exists plan. split; [assumption|].
    destruct plan; try reflexivity. now destruct (Hnd kv).
Qed.

Lemma ask_oracle_plan (e : Entry) (cmds : json) :
  ask_oracle e = inr cmds <->
  exists text kv,
    responses_create (b64 e) (mime e) = inr text /\
    json_loads text = inr (JDict kv) /\
    cmds = default (JList []) (dict_get kv "cmds").
Proof.
  unfold ask_oracle.
  destruct (responses_create _ _) as [m|text].
  { split; [discriminate | intros (t & kv & [=] & _)]. }
  destruct (json_loads text) as [m|plan] eqn:Hload.
  { split; [discriminate|]. intros (t & kv & [= <-] & Hl & _). congruence. }
  destruct plan as [| b | z | f | str | l | kv];
    try (split; [discriminate|];
         intros (t & kv' & [= <-] & Hl & _); congruence).
  cbn [plan_cmds]. split.
  - intros [= <-]. eauto.
  - intros (t & kv' & [= <-] & Hl & ->).
    rewrite Hload in Hl. injection Hl as <-. reflexivity.
Qed.

(** C6, as the code has it.  Past the key check and with a snapshot that
    is not stale, when the request to the service raises, or [json.loads]
    raises on its text, or the plan parsed is not a dict, the handler
    answers [{"cmds": [], "error": msg}] with the message of the
    exception.  In every body the handler answers, ["cmds"] is present and
    is a list, and ["error"] is present exactly when the [try] block
    failed in one of these three ways.  The handler answers no body at all
    exactly when the key check fails or the loop, which is outside the
    [try] block, raises on the [cmds] of the plan. *)
Theorem brain_error_field (rid : string) (req key : option string)
    (now : spec_float) (w : World) :
  (forall e msg,
      bad_key key = false ->
      LATEST w !! rid = Some e ->
      stale now e = false ->
      try_fails e msg ->
      brain rid req key now w
      = (Response (JDict [("cmds", JList []); ("error", JStr msg)]),
         log_call e w)) /\
  (forall body w',
      brain rid req key now w = (Response body, w') ->
      (exists l, field body "cmds" = Some (JList l)) /\
      (is_Some (field body "error") <->
       exists e msg,
         LATEST w !! rid = Some e /\ stale now e = false /\
         try_fails e msg /\
         body = JDict [("cmds", JList []); ("error", JStr msg)])) /\
  ((forall body, fst (brain rid req key now w) <> Response body) <->
   bad_key key = true \/
   exists e text kv ex,
     bad_key key = false /\
     LATEST w !! rid = Some e /\ stale now e = false /\
     responses_create (b64 e) (mime e) = inr text /\
     json_loads text = inr (JDict kv) /\
     validate (default (JList []) (dict_get kv "cmds")) = Raise ex).
Proof.
  split; [|split].
  - intros e msg Hkey He Hst Hfail. apply try_fails_ask in Hfail.
    unfold brain. rewrite Hkey, He, Hst, Hfail. reflexivity.
  - intros body w'. unfold brain.
    destruct (bad_key key); [discriminate|].
    destruct (LATEST w !! rid) as [e|].
    + destruct (stale now e) eqn:Hst.
      * intros [= <- <-]. split; [eexists; reflexivity|].
        split; [intros [? [=]]|].
        intros (e' & msg & [= <-] & Hst' & _). congruence.
      * destruct (ask_oracle e) as [msg|cmds] eqn:Hask.
        -- intros [= <- <-]. split; [eexists; reflexivity|].
           split; [|eexists; reflexivity]. intros _.
           apply try_fails_ask in Hask. eauto 6.
        -- destruct (validate cmds) as [safe|ex]; [|discriminate].
           intros [= <- <-]. split; [eexists; reflexivity|].
           split; [intros [? [=]]|].
           intros (e' & msg & [= <-] & _ & Hfail & _).
           apply try_fails_ask in Hfail. congruence.
    + intros [= <- <-]. split; [eexists; reflexivity|].
      split; [intros [? [=]] | intros (e' & msg & [=] & _)].
  - unfold brain. destruct (bad_key key) eqn:Hkey.
    { split; [auto | intros _ body; discriminate]. }
    destruct (LATEST w !! rid) as [e|].
    2:{ split; [intros Hno; now destruct (Hno _ eq_refl)|].
        intros [[=] | (e & t & kv & ex & _ & [=] & _)]. }
    destruct (stale now e) eqn:Hst.
    { split; [intros Hno; now destruct (Hno _ eq_refl)|].
      intros [[=] | (e' & t & kv & ex & _ & [= <-] & Hst' & _)].
      congruence. }
    destruct (ask_oracle e) as [msg|cmds] eqn:Hask.
    { split; [intros Hno; now destruct (Hno _ eq_refl)|].
      intros [[=] | (e' & t & kv & ex & _ & [= <-] & _ & Ht & Hl & _)].
      assert (Hplan : ask_oracle e
                      = inr (default (JList []) (dict_get kv "cmds")))
        by (apply ask_oracle_plan; eauto).
      congruence. }
    apply ask_oracle_plan in Hask as (text & kv & Ht & Hl & ->).
    destruct (validate _) as [safe|ex] eqn:Hv; cbn [fst].
    + split; [intros Hno; now destruct (Hno _ eq_refl)|].
      intros [[=] | (e' & t' & kv' & ex & _ & [= <-] & _ & Ht' & Hl' & Hv')].
      rewrite Ht in Ht'. injection Ht' as <-.
      rewrite Hl in Hl'. injection Hl' as <-. congruence.
    + split; [|intros _ body; discriminate].
      intros _. right. exists e, text, kv, ex. auto 7.
Qed.

(** C10.  The handler leaves the store as it found it. *)
Theorem brain_store_unchanged (rid : string) (req key : option string)
    (now : spec_float) (w : World) :
  LATEST (snd (brain rid req key now w)) = LATEST w.
Proof.
  unfold brain. destruct (bad_key key); [reflexivity|].
  destruct (LATEST w !! rid) as [e|]; [|reflexivity].
  destruct (stale now e); [reflexivity|].
  destruct (ask_oracle e); [reflexivity|].
  destruct (validate _); reflexivity.
Qed.

(** X21.  The handler ends in an unhandled exception exactly when the
    key check is passed, the snapshot is not stale, the [try] block gives
    a plan, and the loop raises on it: the exception is the one of the
    loop. *)
Lemma brain_unhandled (rid : string) (req key : option string)
    (now : spec_float) (w : World) (ex : py_exn) :
  fst (brain rid req key now w) = Unhandled ex <->
  bad_key key = false /\
  exists e cmds, LATEST w !! rid = Some e /\ stale now e = false /\
                 ask_oracle e = inr cmds /\ validate cmds = Raise ex.
Proof.
  unfold brain. destruct (bad_key key).
  { split; [discriminate | intros [[=] _]]. }
  destruct (LATEST w !! rid) as [e|].
  2:{ split; [discriminate | intros (_ & e & c & [=] & _)]. }
  destruct (stale now e) eqn:Hst.
  { split; [discriminate|]. intros (_ & e' & c & [= <-] & Hst' & _).
    congruence. }
  destruct (ask_oracle e) as [msg|cmds] eqn:Hask.
  { split; [discriminate|]. intros (_ & e' & c & [= <-] & _ & Hask' & _).
    congruence. }
  destruct (validate cmds) as [safe|ex'] eqn:Hv; simpl.
  - split; [discriminate|].
    intros (_ & e' & c & [= <-] & _ & Hask' & Hv'). congruence.
  - split.
    + intros [= ->]. split; [reflexivity|]. eauto 6.
    + intros (_ & e' & c & [= <-] & _ & Hask' & Hv'). congruence.
Qed.

End BrainClaims.

(** ** The handler on a store with one snapshot *)

Example age_60 : age at_60 snapshot = nearest 60.
Proof. vm_compute. reflexivity. Qed.

Example age_60_accepted :
  @brain plain_decimal answering "r1" None (Some "k") at_60 one_robot
  = (Response (JDict [("cmds", JList scenario_out)]),
     log_call snapshot one_robot).
Proof. vm_compute. reflexivity. Qed.

Example age_61_rejected :
  @brain plain_decimal answering "r1" None (Some "k") at_61 one_robot
  = (Response (JDict [("cmds", JList [])]), one_robot).
Proof. vm_compute. reflexivity. Qed.

Example no_snapshot :
  @brain plain_decimal answering "r2" None (Some "k") at_60 one_robot
  = (Response (JDict [("cmds", JList [])]), one_robot).
Proof. vm_compute. reflexivity. Qed.

Example bad_key_rejected :
  @brain plain_decimal answering "r1" None None at_60 one_robot
  = (HTTPException 401 "Bad API key", one_robot).
Proof. vm_compute. reflexivity. Qed.

Example service_times_out :
  @brain plain_decimal failing "r1" None (Some "k") at_60 one_robot
  = (Response (JDict [("cmds", JList []); ("error", JStr "timed out")]),
     log_call snapshot one_robot).
Proof. vm_compute. reflexivity. Qed.

Example plan_is_a_list :
  @brain plain_decimal (stub (inr "[]") (inr (JList [])))
    "r1" None (Some "k") at_60 one_robot
  = (Response (JDict [("cmds", JList []);
                      ("error",
                       JStr "'list' object has no attribute 'get'")]),
     log_call snapshot one_robot).
Proof. vm_compute. reflexivity. Qed.

Example null_field_unhandled :
  @brain plain_decimal
    (stub (inr "{}")
          (inr (JDict [("cmds", JList [JList [JStr "WAIT"; JNull]])])))
    "r1" None (Some "k") at_60 one_robot
  = (Unhandled TypeError, log_call snapshot one_robot).
Proof. vm_compute. reflexivity. Qed.

Example upload_then_brain :
  fst (@brain plain_decimal answering "r2" None (Some "k") at_60
         (snd (@upload answering "r2" (Some "image/png") [] (Some "k")
                 (nearest 1700000000) one_robot)))
  = Response (JDict [("cmds", JList scenario_out)]).
Proof. vm_compute. reflexivity. Qed.


(** At an age of exactly 60 the snapshot is sent; at 61 it is not. *)
Lemma brain_freshness_witness :
  oracle_calls
    (snd (@brain plain_decimal answering "r1" None (Some "k") at_60
            one_robot))
  = [(b64 snapshot, mime snapshot)] /\
  @brain plain_decimal answering "r1" None (Some "k") at_61 one_robot
  = (Response (JDict [("cmds", JList [])]), one_robot).
Proof.
  assert (Hts : forall e, LATEST one_robot !! "r1" = Some e ->
                          Num.is_finite (ts e) = true).
  { intros e He. vm_compute in He. injection He as <-.
    vm_compute. reflexivity. }
  split.
  - destruct (@brain_freshness plain_decimal answering "r1" None (Some "k")
                at_60 one_robot) as [[Hsent _] _].
    + vm_compute. reflexivity.
    + vm_compute. reflexivity.
    + exact Hts.
    + destruct Hsent as (e & He & Hcalls).
      * exists snapshot. split; vm_compute; reflexivity.
      * vm_compute in He. injection He as <-. exact Hcalls.
  - apply (@brain_freshness plain_decimal answering "r1" None (Some "k")
             at_61 one_robot).
    + vm_compute. reflexivity.
    + vm_compute. reflexivity.
    + exact Hts.
    + intros (e & He & Hle). vm_compute in He. injection He as <-.
      vm_compute in Hle. discriminate Hle.
Defined.

(** [json.loads] raises on the text of the service. *)
Lemma brain_error_field_witness :
  @brain plain_decimal (stub (inr "not json") (inl "Expecting value"))
    "r1" None (Some "k") at_60 one_robot
  = (Response (JDict [("cmds", JList []);
                      ("error", JStr "Expecting value")]),
     log_call snapshot one_robot).
Proof.
  apply (@brain_error_field plain_decimal
           (stub (inr "not json") (inl "Expecting value"))
           "r1" None (Some "k") at_60 one_robot).
  - vm_compute. reflexivity.
  - vm_compute. reflexivity.
  - vm_compute. reflexivity.
  - right. exists "not json". split; [reflexivity|]. left. reflexivity.
Defined.

(** The service answers [{"cmds": null}]: the handler answers no body. *)
Lemma null_cmds_no_body :
  fst (@brain plain_decimal
         (stub (inr "{}") (inr (JDict [("cmds", JNull)])))
         "r1" None (Some "k") at_60 one_robot)
  = Unhandled TypeError.
Proof. vm_compute. reflexivity. Qed.

(** * Further properties *)

(** ** [clip] *)

Lemma in_range_val (lo hi : Z) (n : Num.num) :
  in_range lo hi n ->
  exists q, Num.val n = Num.XFin q /\
            (inject_Z lo <= q)%Q /\ (q <= inject_Z hi)%Q.
Proof.
  unfold in_range. destruct (Num.val n) as [|b|q]; try contradiction.
  intros [? ?]. eauto.
Qed.

Lemma lt_val (a b : Num.num) (p q : Q) :
  Num.val a = Num.XFin p -> Num.val b = Num.XFin q ->
  (Num.lt a b = true <-> (p < q)%Q) /\ (Num.lt a b = false <-> (q <= p)%Q).
Proof.
  intros Ha Hb. unfold Num.lt. rewrite Ha, Hb.
  split; [apply xlt_fin | apply xlt_fin_false].
Qed.

Lemma clip_same_value (v : Num.num) (lo hi : Z) :
  in_range lo hi v ->
  same_value (clip v (Num.NInt lo) (Num.NInt hi)) v.
Proof.
  intros Hr. destruct (in_range_val _ _ _ Hr) as (q & Hq & Hlo & Hhi).
  assert (Hvh : Num.lt v (Num.NInt hi) = false -> (inject_Z hi <= q)%Q)
    by apply (lt_val v (Num.NInt hi) q (inject_Z hi) Hq eq_refl).
  assert (Hlv : Num.lt (Num.NInt lo) v = false -> (q <= inject_Z lo)%Q)
    by apply (lt_val (Num.NInt lo) v (inject_Z lo) q eq_refl Hq).
  unfold same_value, clip, Num.max, Num.min, Num.gt.
  destruct (Num.lt v (Num.NInt hi)) eqn:E1.
  - destruct (Num.lt (Num.NInt lo) v) eqn:E2.
    + rewrite Hq. reflexivity.
    + rewrite Hq. simpl. symmetry. apply Qle_antisym; auto.
  - specialize (Hvh eq_refl). rewrite lt_int.
    destruct (lo <? hi) eqn:E3; rewrite Hq; simpl.
    + symmetry. apply Qle_antisym; auto.
    + apply Z.ltb_ge in E3. rewrite Zle_Qle in E3.
      apply Qle_antisym; [assumption|].
      apply (Qle_trans _ (inject_Z hi)); assumption.
Qed.

(** X1.  [clip] does not change the value of a number that already lies
    between the bounds: the result has the same exact value (at a bound
    it is the bound itself, an int). *)
Theorem clip_keeps_value (v : Num.num) (lo hi : Z) :
  in_range lo hi v ->
  same_value (clip v (Num.NInt lo) (Num.NInt hi)) v.
Proof. apply clip_same_value. Qed.

Lemma xlt_asym (a b : Num.xreal) :
  Num.xlt a b = true -> Num.xlt b a = false.
Proof.
  destruct a as [|[]|p], b as [|[]|q]; try reflexivity; try discriminate.
  intros Hlt. apply xlt_fin in Hlt. apply xlt_fin_false.
  now apply Qlt_le_weak.
Qed.

Lemma xlt_below (a : Num.xreal) (lo hi : Z) :
  lo <= hi ->
  Num.xlt a (Num.XFin (inject_Z lo)) = true ->
  Num.xlt a (Num.XFin (inject_Z hi)) = true.
Proof.
  intros Hle. destruct a as [|[]|p]; try reflexivity; try discriminate.
  intros Hlt. apply xlt_fin in Hlt. apply xlt_fin.
  apply (Qlt_le_trans _ (inject_Z lo)); [assumption|].
  now rewrite <- Zle_Qle.
Qed.

Lemma clip_above (v : Num.num) (lo hi : Z) :
  lo <= hi ->
  Num.lt v (Num.NInt hi) = false ->
  clip v (Num.NInt lo) (Num.NInt hi) = Num.NInt hi.
Proof.
  intros Hle Hv. unfold clip, Num.max, Num.min, Num.gt.
  rewrite Hv, lt_int. destruct (lo <? hi) eqn:E; [reflexivity|].
  f_equal. lia.
Qed.

(** X2.  [clip] saturates: a number below the lower bound gives the lower
    bound, a number above the upper bound gives the upper bound, and a NaN
    gives the upper bound; the bound comes out as the int of the table. *)
Theorem clip_saturates (v : Num.num) (lo hi : Z) :
  lo <= hi ->
  (Num.lt v (Num.NInt lo) = true ->
   clip v (Num.NInt lo) (Num.NInt hi) = Num.NInt lo) /\
  (Num.lt (Num.NInt hi) v = true ->
   clip v (Num.NInt lo) (Num.NInt hi) = Num.NInt hi) /\
  (Num.val v = Num.XNaN ->
   clip v (Num.NInt lo) (Num.NInt hi) = Num.NInt hi).
Proof.
  intros Hle. repeat split.
  - intros Hlt. unfold clip, Num.max, Num.min, Num.gt.
    unfold Num.lt in *. simpl (Num.val (Num.NInt _)) in *.
    rewrite (xlt_below _ lo hi Hle Hlt), (xlt_asym _ _ Hlt). reflexivity.
  - intros Hgt. apply clip_above; [assumption|].
    unfold Num.lt in *. now apply xlt_asym.
  - intros Hnan. apply clip_above; [assumption|].
    unfold Num.lt. rewrite Hnan. reflexivity.
Qed.

Lemma clip_saturates_witness :
  clip (Num.NFloat (S754_infinity true)) (Num.NInt (-150)) (Num.NInt 150)
  = Num.NInt (-150).
Proof.
  apply (clip_saturates (Num.NFloat (S754_infinity true)) (-150) 150).
  - lia.
  - reflexivity.
Defined.

Lemma clip_keeps_value_witness :
  same_value (clip (Num.NFloat half) (Num.NInt 0) (Num.NInt 130))
             (Num.NFloat half).
Proof.
  apply (clip_keeps_value (Num.NFloat half) 0 130).
  unfold in_range, Qle. simpl. lia.
Defined.

(** ** The loop, further *)

Lemma table_ints_exact : forallb exact_int table_ints = true.
Proof. vm_compute. reflexivity. Qed.

Lemma float_of_table_int (z : Z) :
  -150 <= z <= 150 ->
  exists f, Num.float_of_int z = Ok f /\ in_range z z (Num.NFloat f).
Proof.
  intros Hz.
  assert (Hin : In z table_ints).
  { unfold table_ints. apply in_map_iff. exists (Z.to_nat (z + 150)).
    split; [lia|]. apply in_seq. lia. }
  pose proof (proj1 (forallb_forall _ _) table_ints_exact z Hin) as Hex.
  unfold exact_int in Hex.
  destruct (Num.float_of_int z) as [f|]; [|discriminate].
  exists f. split; [reflexivity|]. unfold in_range. simpl Num.val.
  destruct (Num.float_val f) as [| |q]; try discriminate.
  apply Qeq_bool_iff in Hex. rewrite Hex. split; apply Qle_refl.
Qed.

Lemma same_value_in_range (a b : Num.num) (lo hi : Z) :
  same_value a b -> in_range lo hi b -> in_range lo hi a.
Proof.
  unfold same_value, in_range.
  destruct (Num.val a) as [| |p], (Num.val b) as [| |q]; try contradiction.
  intros Heq [? ?]. rewrite Heq. auto.
Qed.

Section LoopFurther.

Context `{StrParse}.

Lemma validate_loop_app (xs ys safe : list json) :
  validate_loop (xs ++ ys) safe =
  (s' <- validate_loop xs safe ;; validate_loop ys s').
Proof.
  revert safe. induction xs as [|c xs IH]; intros safe; simpl.
  - reflexivity.
  - destruct (validate_cmd c) as [r|e]; cbn [rbind]; [apply IH | reflexivity].
Qed.

Lemma validate_loop_acc (cs safe : list json) :
  validate_loop cs safe =
  (out <- validate_loop cs [] ;; Ok (safe ++ out)).
Proof.
  revert safe. induction cs as [|c cs IH]; intros safe; simpl.
  - now rewrite app_nil_r.
  - destruct (validate_cmd c) as [[x|]|e]; cbn [rbind]; try reflexivity.
    + rewrite (IH (safe ++ [x])), (IH [x]).
      destruct (validate_loop cs []); cbn [rbind]; [|reflexivity].
      now rewrite <- app_assoc.
    + apply IH.
Qed.

Lemma validate_loop_strs (cs safe : list json) :
  Forall (fun c => exists s, c = JStr s) cs ->
  validate_loop cs safe = Ok safe.
Proof.
  intros Hall. revert safe.
  induction Hall as [|c cs [s ->] _ IH]; intros safe; simpl.
  - reflexivity.
  - rewrite validate_cmd_str. cbn [rbind]. apply IH.
Qed.

(** X3.  A plan whose [cmds] is not a list: a string or a dict gives no
    command at all, its characters and its keys being strings the loop
    skips; null, a bool or a number makes the loop raise [TypeError]. *)
Theorem validate_not_a_list (cmds : json) :
  (forall l, cmds <> JList l) ->
  validate cmds = match cmds with
                  | JStr _ | JDict _ => Ok []
                  | _ => Raise TypeError
                  end.
Proof.
  intros Hnl. destruct cmds as [| b | z | f | s | l | kv];
    try reflexivity.
  - unfold validate. cbn [py_iter rbind]. apply validate_loop_strs.
    induction s as [|a s IH]; simpl; constructor; eauto.
  - now destruct (Hnl l).
  - unfold validate. cbn [py_iter rbind]. apply validate_loop_strs.
    induction kv as [|[k v] kv IH]; simpl; constructor; eauto.
Qed.

(** X4.  The loop goes through a plan piece by piece: validating the
    concatenation of two plans gives the concatenation of their outputs,
    and raises what the first piece raises, else what the second does. *)
Theorem validate_app (xs ys : list json) :
  validate (JList (xs ++ ys)) =
  (a <- validate (JList xs) ;; b <- validate (JList ys) ;; Ok (a ++ b)).
Proof.
  unfold validate. cbn [py_iter rbind]. rewrite validate_loop_app.
  destruct (validate_loop xs []) as [a|e]; cbn [rbind]; [|reflexivity].
  apply validate_loop_acc.
Qed.

(** X5.  The loop stops at the first entry it cannot get past: it raises
    the exception of that entry, looks at no later entry and returns none
    of the commands it had kept. *)
Theorem validate_first_raise (pre post : list json) (c : json) (e : py_exn) :
  Forall passable pre ->
  validate_cmd c = Raise e ->
  validate (JList (pre ++ c :: post)) = Raise e.
Proof.
  intros Hpre Hc. unfold validate. cbn [py_iter rbind].
  rewrite validate_loop_app.
  assert (Hok : validate_loop pre [] = Ok (omap kept pre)).
  { apply validate_loop_spec. split; [|reflexivity].
    eapply Forall_impl; [exact Hpre|]. intros x. apply validate_cmd_returns. }
  rewrite Hok. simpl. rewrite Hc. reflexivity.
Qed.

End LoopFurther.

Section TurnFurther.

Context `{StrParse}.

Lemma clip_joint_inside (j : joint) (f : spec_float) :
  inside j f -> clip_joint (JFloat f) j = Ok (JFloat f).
Proof.
  intros [Hlo Hhi]. unfold clip_joint. cbn [py_float rbind].
  unfold clip, Num.max, Num.min, Num.gt. rewrite Hhi, Hlo. reflexivity.
Qed.

(** X6.  A tuple is dropped, whatever its other elements hold and without
    any of them being read, when its first element is not a string, or is a
    string that is none of HOME, STOP and STATUS and whose arity is not the
    length of the tuple: an unknown tag, a MOVE not of seven elements, a
    GRIP or WAIT not of two. *)
Theorem malformed_dropped (op : json) (rest : list json) :
  match op with
  | JStr tag => ~ In tag ["HOME"; "STOP"; "STATUS"] /\
                arity tag <> Some (S (length rest))
  | _ => True
  end ->
  validate_cmd (JList (op :: rest)) = Ok None.
Proof.
  destruct op as [| b | z | f | tag | l | kv]; try reflexivity.
  intros [Hbare Harity].
  assert (Hb : in_strs (JStr tag) ["HOME"; "STOP"; "STATUS"] = false).
  { destruct (in_strs _ _) eqn:E; [|reflexivity].
    apply in_strs_bare in E. exfalso. apply Hbare. simpl.
    destruct E as [[= ->] | [[= ->] | [= ->]]]; auto. }
  unfold validate_cmd, tag_and_len.
  cbn [truthy negb py_getitem nth_error py_len rbind length Nat.eqb eq_str].
  rewrite Hb. unfold arity in Harity.
  destruct (String.eqb tag "MOVE") eqn:E1; cbn [rbind].
  { destruct (Nat.eqb (length rest) 6) eqn:El.
    - apply Nat.eqb_eq in El. rewrite El in Harity. contradiction.
    - apply String.eqb_eq in E1. subst tag. reflexivity. }
  destruct (String.eqb tag "GRIP") eqn:E2; cbn [rbind].
  { destruct (Nat.eqb (length rest) 1) eqn:El.
    - apply Nat.eqb_eq in El. rewrite El in Harity. contradiction.
    - apply String.eqb_eq in E2. subst tag. reflexivity. }
  destruct (String.eqb tag "WAIT") eqn:E3; cbn [rbind]; [|reflexivity].
  destruct (Nat.eqb (length rest) 1) eqn:El; [|reflexivity].
  apply Nat.eqb_eq in El. rewrite El in Harity. contradiction.
Qed.

(** X7.  The duration of a WAIT is what [int] makes of the field,
    brought into [0, 5000]: a field below 0 gives 0, one above 5000 gives
    5000, and a float loses its fraction first. *)
Theorem wait_clamps (x : json) (t : Z) :
  py_int x = Ok t ->
  validate_cmd (JList [JStr "WAIT"; x]) =
  Ok (Some (JList [JStr "WAIT"; JInt (Z.max 0 (Z.min 5000 t))])).
Proof.
  intros Ht. apply validate_cmd_complete, V_wait; [reflexivity|].
  rewrite clamp_ms_eq, Ht. reflexivity.
Qed.

(** X8.  A MOVE that is already within all its bounds, with float angles
    strictly inside the limits, comes out as it went in. *)
Theorem valid_move_unchanged (f0 f1 f2 f3 : spec_float) (g T : Z) :
  inside base f0 -> inside shoulder f1 ->
  inside elbow f2 -> inside wrist f3 ->
  g = 0 \/ g = 1 ->
  1000 <= T <= 20000 ->
  validate_cmd (JList [JStr "MOVE"; JFloat f0; JFloat f1; JFloat f2;
                       JFloat f3; JInt g; JInt T]) =
  Ok (Some (JList [JStr "MOVE"; JFloat f0; JFloat f1; JFloat f2;
                   JFloat f3; JInt g; JInt T])).
Proof.
  intros H0 H1 H2 H3 Hg HT.
  apply validate_cmd_complete, V_move;
    try reflexivity; try (now apply clip_joint_inside).
  - destruct Hg as [-> | ->]; reflexivity.
  - rewrite clamp_ms_eq. cbn [py_int rbind]. do 2 f_equal. lia.
Qed.

(** X9.  An int angle within the limits of its joint keeps its value: it
    comes out as a float, or at a limit as the int of the table, of
    exactly that value. *)
Theorem int_angle_keeps_value (j : joint) (z : Z) :
  fst (ARM_LIMITS j) <= z <= snd (ARM_LIMITS j) ->
  exists a', clip_joint (JInt z) j = Ok a' /\ within z z a'.
Proof.
  intros Hz.
  assert (Hsmall : -150 <= z <= 150) by (destruct j; simpl in Hz; lia).
  destruct (float_of_table_int z Hsmall) as (f & Hf & Hr).
  unfold clip_joint. cbn [py_float]. rewrite Hf. cbn [rbind].
  eexists. split; [reflexivity|]. apply within_to_json.
  apply (same_value_in_range _ (Num.NFloat f)); [|assumption].
  apply clip_same_value.
  unfold in_range in *. simpl Num.val in *.
  destruct (Num.float_val f) as [| |q]; try contradiction.
  destruct Hr as [Hlo Hhi]. split.
  - apply (Qle_trans _ (inject_Z z)); [|assumption].
    rewrite <- Zle_Qle. lia.
  - apply (Qle_trans _ (inject_Z z)); [assumption|].
    rewrite <- Zle_Qle. lia.
Qed.

End TurnFurther.

Lemma validate_not_a_list_witness :
  @validate plain_decimal (JDict [("MOVE", JNull); ("cmds", JList [])])
  = Ok [].
Proof.
  apply (@validate_not_a_list plain_decimal
           (JDict [("MOVE", JNull); ("cmds", JList [])])).
  intros l. discriminate.
Defined.

Lemma validate_first_raise_witness :
  @validate plain_decimal
    (JList ([JList [JStr "HOME"]] ++ JInt 5 :: [JList [JStr "STOP"]]))
  = Raise TypeError.
Proof.
  apply (@validate_first_raise plain_decimal).
  - repeat constructor.
  - reflexivity.
Defined.

Lemma malformed_dropped_witness :
  @validate_cmd plain_decimal
    (JList [JStr "MOVE"; JNull; JNull]) = Ok None.
Proof.
  apply (@malformed_dropped plain_decimal (JStr "MOVE") [JNull; JNull]).
  split.
  - simpl. intros [H | [H | [H | []]]]; discriminate H.
  - discriminate.
Defined.

Lemma wait_clamps_witness :
  @validate_cmd plain_decimal (JList [JStr "WAIT"; JFloat half])
  = Ok (Some (JList [JStr "WAIT"; JInt 0])).
Proof.
  apply (@wait_clamps plain_decimal (JFloat half) 0). reflexivity.
Defined.

Lemma valid_move_unchanged_witness :
  @validate_cmd plain_decimal
    (JList [JStr "MOVE"; JFloat half; JFloat half; JFloat half;
            JFloat half; JInt 1; JInt 1000])
  = Ok (Some (JList [JStr "MOVE"; JFloat half; JFloat half; JFloat half;
                     JFloat half; JInt 1; JInt 1000])).
Proof.
  apply (@valid_move_unchanged plain_decimal half half half half 1 1000);
    try (split; reflexivity).
  - right. reflexivity.
  - lia.
Defined.

Lemma int_angle_keeps_value_witness :
  exists a', @clip_joint plain_decimal (JInt 120) shoulder = Ok a' /\
             within 120 120 a'.
Proof.
  apply (@int_angle_keeps_value plain_decimal shoulder 120). simpl. lia.
Defined.

(** ** The handlers, further *)

Lemma SFsub_diag (x : spec_float) :
  Num.is_finite x = true ->
  Num.float_val (SFsub Num.prec Num.emax x x) = Num.XFin 0.
Proof.
  destruct x as [[]| | |s m e]; try discriminate; intros _; try reflexivity.
  simpl. rewrite Z.sub_diag. reflexivity.
Qed.

Section HandlersFurther.

Context `{StrParse} `{Runtime}.

(** What [brain] answers depends on the world only through the entry of
    the robot. *)
Lemma brain_reads_entry (rid : string) (req key : option string)
    (now : spec_float) (w1 w2 : World) :
  LATEST w1 !! rid = LATEST w2 !! rid ->
  fst (brain rid req key now w1) = fst (brain rid req key now w2).
Proof.
  intros Heq. unfold brain. rewrite Heq.
  destruct (bad_key key); [reflexivity|].
  destruct (LATEST w2 !! rid) as [e|]; [|reflexivity].
  destruct (stale now e); [reflexivity|].
  destruct (ask_oracle e); [reflexivity|].
  destruct (validate _); reflexivity.
Qed.

(** X10.  Whatever the planning service answers, the commands of a body
    that [brain] returns are all within their bounds and all well formed. *)
Theorem brain_commands_safe (rid : string) (req key : option string)
    (now : spec_float) (w w' : World) (body : json) :
  brain rid req key now w = (Response body, w') ->
  exists l, field body "cmds" = Some (JList l) /\
            Forall bounded_cmd l /\ Forall well_formed l.
Proof.
  unfold brain. destruct (bad_key key); [discriminate|].
  destruct (LATEST w !! rid) as [e|].
  2:{ intros [= <- <-]. exists []. repeat split; constructor. }
  destruct (stale now e).
  { intros [= <- <-]. exists []. repeat split; constructor. }
  destruct (ask_oracle e) as [msg|cmds].
  { intros [= <- <-]. exists []. repeat split; constructor. }
  destruct (validate cmds) as [safe|ex] eqn:Hv; [|discriminate].
  intros [= <- <-]. exists safe. split; [reflexivity|]. split.
  - apply (validate_Forall _ cmds); [apply validated_bounded | assumption].
  - apply (validate_Forall _ cmds); [apply validated_well_formed | assumption].
Qed.

(** X11.  A request to [brain] sends the planning service at most one
    request, and only the stored snapshot of the robot it names: never the
    image of another robot. *)
Theorem brain_one_call (rid : string) (req key : option string)
    (now : spec_float) (w : World) :
  snd (brain rid req key now w) = w \/
  exists e, LATEST w !! rid = Some e /\
            snd (brain rid req key now w) = log_call e w.
Proof.
  unfold brain. destruct (bad_key key); [auto|].
  destruct (LATEST w !! rid) as [e|]; [|auto].
  destruct (stale now e); [auto|]. right. exists e. split; [reflexivity|].
  destruct (ask_oracle e); [reflexivity|].
  destruct (validate _); reflexivity.
Qed.

(** X12.  The key check lets a request through exactly when no key is
    configured, the configured key is the empty string, or the header
    carries the configured key. *)
Theorem key_check (key : option string) :
  bad_key key = false <->
  PROXY_API_KEY = None \/ PROXY_API_KEY = Some "" \/ key = PROXY_API_KEY.
Proof.
  unfold bad_key. destruct PROXY_API_KEY as [k|]; [|intuition].
  destruct (String.eqb_spec k "") as [->|Hk]; cbn [negb andb].
  - intuition.
  - destruct (bool_decide_reflect (key = Some k)) as [->|Hne]; cbn [negb].
    + intuition.
    + split; [discriminate|]. intros [[=] | [[= ->] | ->]]; congruence.
Qed.

(** X13.  With a bad key both handlers answer 401 and touch nothing: no
    snapshot is stored and the planning service is not asked. *)
Theorem bad_key_401 (rid : string) (req key ct : option string)
    (raw : list Byte.byte) (now : spec_float) (w : World) :
  bad_key key = true ->
  brain rid req key now w = (HTTPException 401 "Bad API key", w) /\
  upload rid ct raw key now w = (HTTPException 401 "Bad API key", w).
Proof.
  intros Hk. unfold brain, upload. rewrite Hk. split; reflexivity.
Qed.

Lemma allowed_type_Some (content_type : option string) (ct : string) :
  allowed_type content_type = Some ct <->
  content_type = Some ct /\
  In ct ["image/jpeg"; "image/jpg"; "image/png"].
Proof.
  unfold allowed_type. destruct content_type as [c|].
  - destruct (existsb _ _) eqn:E.
    + apply existsb_exists in E as (x & Hin & Hx).
      apply String.eqb_eq in Hx. subst x.
      split; [intros [= ->]; auto | intros [[= ->] _]; reflexivity].
    + split; [discriminate|]. intros [[= ->] Hin].
      assert (existsb (String.eqb ct)
                ["image/jpeg"; "image/jpg"; "image/png"] = true)
        by (apply existsb_exists; exists ct; split;
            [assumption | apply String.eqb_refl]).
      congruence.
  - split; [discriminate | intros [[=] _]].
Qed.

Lemma upload_accepted (rid ct : string) (raw : list Byte.byte)
    (key : option string) (now : spec_float) (w : World) :
  bad_key key = false ->
  In ct ["image/jpeg"; "image/jpg"; "image/png"] ->
  Z.of_nat (length raw) <= 1500000 ->
  upload rid (Some ct) raw key now w
  = (Response (JDict [("ok", JBool true);
                      ("size", JInt (Z.of_nat (length raw)))]),
     {| LATEST := <[rid := {| b64 := b64encode raw; ts := now;
                              mime := ct |}]> (LATEST w);
        oracle_calls := oracle_calls w |}).
Proof.
  intros Hk Hct Hlen. unfold upload. rewrite Hk.
  rewrite (proj2 (allowed_type_Some (Some ct) ct) (conj eq_refl Hct)).
  destruct (Z.ltb_spec 1500000 (Z.of_nat (length raw))) as [Hbig|_];
    [lia | reflexivity].
Qed.

(** X14.  An accepted upload answers with the size of the image and
    stores, under the robot, the encoded image, the clock reading and the
    content type; the entries of the other robots and the record of
    requests to the planning service stay as they were. *)
Theorem upload_stores (rid ct : string) (raw : list Byte.byte)
    (key : option string) (now : spec_float) (w : World) :
  bad_key key = false ->
  In ct ["image/jpeg"; "image/jpg"; "image/png"] ->
  Z.of_nat (length raw) <= 1500000 ->
  fst (upload rid (Some ct) raw key now w)
  = Response (JDict [("ok", JBool true);
                     ("size", JInt (Z.of_nat (length raw)))]) /\
  LATEST (snd (upload rid (Some ct) raw key now w)) !! rid
  = Some {| b64 := b64encode raw; ts := now; mime := ct |} /\
  (forall rid', rid' <> rid ->
     LATEST (snd (upload rid (Some ct) raw key now w)) !! rid'
     = LATEST w !! rid') /\
  oracle_calls (snd (upload rid (Some ct) raw key now w)) = oracle_calls w.
Proof.
  intros Hk Hct Hlen. rewrite (upload_accepted _ _ _ _ _ _ Hk Hct Hlen).
  cbn [fst snd LATEST oracle_calls]. repeat split.
  - apply lookup_insert_eq.
  - intros rid' Hne. now apply lookup_insert_ne.
Qed.

(** X15.  Past the key check, an upload is accepted exactly when its
    content type is one of the three image types and the image has at most
    1,500,000 bytes; a rejected upload leaves the world as it was. *)
Theorem upload_accepts (rid : string) (content_type : option string)
    (raw : list Byte.byte) (key : option string) (now : spec_float)
    (w : World) :
  bad_key key = false ->
  ((exists body, fst (upload rid content_type raw key now w) = Response body)
   <-> (exists ct, content_type = Some ct /\
                   In ct ["image/jpeg"; "image/jpg"; "image/png"]) /\
       Z.of_nat (length raw) <= 1500000) /\
  ((forall body, fst (upload rid content_type raw key now w) <> Response body)
   -> snd (upload rid content_type raw key now w) = w).
Proof.
  intros Hk. unfold upload. rewrite Hk.
  destruct (allowed_type content_type) as [ct|] eqn:Ht.
  - apply allowed_type_Some in Ht as [-> Hin].
    destruct (Z.ltb_spec 1500000 (Z.of_nat (length raw))) as [Hbig|Hok];
      cbn [fst snd].
    + split; [|reflexivity]. split; [intros [? [=]] | intros [_ ?]; lia].
    + split; [|intros Hno; now destruct (Hno _ eq_refl)].
      split; [|eauto]. intros _. split; [eauto | lia].
  - cbn [fst snd]. split; [|reflexivity].
    split; [intros [? [=]]|]. intros [(ct & -> & Hin) _].
    rewrite (proj2 (allowed_type_Some (Some ct) ct) (conj eq_refl Hin)) in Ht.
    discriminate.
Qed.

(** X16.  After an accepted upload, a request to [brain] for the same
    robot, at a clock reading for which the snapshot is not stale, sends
    the planning service the image just uploaded with its content type. *)
Theorem upload_then_ask (rid ct : string) (raw : list Byte.byte)
    (req key : option string) (t now : spec_float) (w : World) :
  bad_key key = false ->
  In ct ["image/jpeg"; "image/jpg"; "image/png"] ->
  Z.of_nat (length raw) <= 1500000 ->
  stale now {| b64 := b64encode raw; ts := t; mime := ct |} = false ->
  oracle_calls
    (snd (brain rid req key now (snd (upload rid (Some ct) raw key t w))))
  = (b64encode raw, ct) :: oracle_calls w.
Proof.
  intros Hk Hct Hlen Hst.
  rewrite (upload_accepted _ _ _ _ _ _ Hk Hct Hlen). cbn [snd].
  rewrite (brain_asks rid req key now _
             {| b64 := b64encode raw; ts := t; mime := ct |} Hk);
    [reflexivity | apply lookup_insert_eq | assumption].
Qed.

(** X17.  A snapshot is not stale at the clock reading it was stored
    with. *)
Theorem fresh_at_upload (e : Entry) :
  Num.is_finite (ts e) = true -> stale (ts e) e = false.
Proof.
  intros Hfin. unfold stale, age, Num.gt, Num.lt.
  simpl Num.val. rewrite (SFsub_diag _ Hfin). reflexivity.
Qed.

(** X18.  An accepted upload for a robot replaces whatever an earlier
    upload for it had stored: the world is the one this upload alone
    would have made, whether the earlier upload was accepted or not. *)
Theorem upload_overwrites (rid ct2 : string) (ct1 : option string)
    (raw1 raw2 : list Byte.byte) (key : option string)
    (t1 t2 : spec_float) (w : World) :
  bad_key key = false ->
  In ct2 ["image/jpeg"; "image/jpg"; "image/png"] ->
  Z.of_nat (length raw2) <= 1500000 ->
  snd (upload rid (Some ct2) raw2 key t2
         (snd (upload rid ct1 raw1 key t1 w)))
  = snd (upload rid (Some ct2) raw2 key t2 w).
Proof.
  intros Hk Hct Hlen. unfold upload. rewrite Hk.
  rewrite (proj2 (allowed_type_Some (Some ct2) ct2) (conj eq_refl Hct)).
  destruct (Z.ltb_spec 1500000 (Z.of_nat (length raw2))) as [Hbig|_];
    [lia|].
  destruct (allowed_type ct1); [|reflexivity].
  destruct (1500000 <? Z.of_nat (length raw1)); [reflexivity|].
  cbn [snd LATEST oracle_calls]. f_equal. apply insert_insert_eq.
Qed.

(** X19.  An upload for one robot does not change what [brain] answers
    for another. *)
Theorem upload_other_robot (rid rid' : string) (ct : option string)
    (raw : list Byte.byte) (req key key' : option string)
    (t now : spec_float) (w : World) :
  rid <> rid' ->
  fst (brain rid req key now (snd (upload rid' ct raw key' t w)))
  = fst (brain rid req key now w).
Proof.
  intros Hne. apply brain_reads_entry. unfold upload.
  destruct (bad_key key'); [reflexivity|].
  destruct (allowed_type ct); [|reflexivity].
  destruct (1500000 <? Z.of_nat (length raw)); [reflexivity|].
  cbn [snd LATEST]. apply lookup_insert_ne. congruence.
Qed.

(** X20.  When the planning service answers a JSON object without a
    ["cmds"] key, [brain] answers [{"cmds": []}], with no error field. *)
Theorem plan_without_cmds (rid : string) (req key : option string)
    (now : spec_float) (w : World) (e : Entry) (text : string)
    (kv : list (string * json)) :
  bad_key key = false ->
  LATEST w !! rid = Some e ->
  stale now e = false ->
  responses_create (b64 e) (mime e) = inr text ->
  json_loads text = inr (JDict kv) ->
  dict_get kv "cmds" = None ->
  brain rid req key now w
  = (Response (JDict [("cmds", JList [])]), log_call e w).
Proof.
  intros Hk He Hst Hcreate Hload Hget. unfold brain, ask_oracle.
  rewrite Hk, He, Hst, Hcreate, Hload. cbn [plan_cmds]. rewrite Hget.
  reflexivity.
Qed.

End HandlersFurther.

Lemma brain_commands_safe_witness :
  exists l,
    field (JDict [("cmds", JList scenario_out)]) "cmds" = Some (JList l) /\
    Forall bounded_cmd l /\ Forall well_formed l.
Proof.
  apply (@brain_commands_safe plain_decimal answering "r1" None (Some "k")
           at_60 one_robot (log_call snapshot one_robot)).
  vm_compute. reflexivity.
Defined.

Lemma bad_key_401_witness :
  @brain plain_decimal answering "r1" None (Some "x") at_60 one_robot
  = (HTTPException 401 "Bad API key", one_robot) /\
  @upload answering "r1" (Some "image/png") [] (Some "x") at_60 one_robot
  = (HTTPException 401 "Bad API key", one_robot).
Proof.
  apply (@bad_key_401 plain_decimal answering). vm_compute. reflexivity.
Defined.

Lemma upload_stores_witness :
  LATEST (snd (@upload answering "r2" (Some "image/jpeg")
                 [Byte.x68; Byte.x69] (Some "k") at_60 one_robot)) !! "r2"
  = Some {| b64 := @b64encode answering [Byte.x68; Byte.x69];
            ts := at_60; mime := "image/jpeg" |}.
Proof.
  apply (@upload_stores answering "r2" "image/jpeg" [Byte.x68; Byte.x69]
           (Some "k") at_60 one_robot).
  - vm_compute. reflexivity.
  - simpl. auto.
  - simpl. lia.
Defined.

Lemma upload_accepts_witness :
  (exists body,
     fst (@upload answering "r2" None [] (Some "k") at_60 one_robot)
     = Response body)
  <-> (exists ct, None = Some ct /\
                  In ct ["image/jpeg"; "image/jpg"; "image/png"]) /\
      Z.of_nat (@length Byte.byte []) <= 1500000.
Proof.
  apply (@upload_accepts answering "r2" None [] (Some "k") at_60 one_robot).
  vm_compute. reflexivity.
Defined.

Lemma upload_then_ask_witness :
  oracle_calls
    (snd (@brain plain_decimal answering "r2" None (Some "k") at_60
            (snd (@upload answering "r2" (Some "image/png") []
                    (Some "k") (nearest 1700000000) one_robot))))
  = (@b64encode answering [], "image/png") :: oracle_calls one_robot.
Proof.
  apply (@upload_then_ask plain_decimal answering).
  - vm_compute. reflexivity.
  - simpl. auto.
  - simpl. lia.
  - vm_compute. reflexivity.
Defined.

Lemma fresh_at_upload_witness : stale (ts snapshot) snapshot = false.
Proof. apply (fresh_at_upload snapshot). vm_compute. reflexivity. Defined.

Lemma upload_overwrites_witness :
  snd (@upload answering "r1" (Some "image/png") [] (Some "k") at_61
         (snd (@upload answering "r1" (Some "image/jpeg") [Byte.x68]
                 (Some "k") at_60 one_robot)))
  = snd (@upload answering "r1" (Some "image/png") [] (Some "k") at_61
           one_robot).
Proof.
  apply (@upload_overwrites answering).
  - vm_compute. reflexivity.
  - simpl. auto.
  - simpl. lia.
Defined.

Lemma upload_other_robot_witness :
  fst (@brain plain_decimal answering "r1" None (Some "k") at_60
         (snd (@upload answering "r2" (Some "image/png") [] (Some "k")
                 at_60 one_robot)))
  = fst (@brain plain_decimal answering "r1" None (Some "k") at_60
           one_robot).
Proof.
  apply (@upload_other_robot plain_decimal answering "r1" "r2").
  discriminate.
Defined.

Lemma plan_without_cmds_witness :
  @brain plain_decimal (stub (inr "{}") (inr (JDict [])))
    "r1" None (Some "k") at_60 one_robot
  = (Response (JDict [("cmds", JList [])]), log_call snapshot one_robot).
Proof.
  apply (@plan_without_cmds plain_decimal (stub (inr "{}") (inr (JDict [])))
           "r1" None (Some "k") at_60 one_robot snapshot "{}" []).
  - vm_compute. reflexivity.
  - vm_compute. reflexivity.
  - vm_compute. reflexivity.
  - reflexivity.
  - reflexivity.
  - reflexivity.
Defined.

(** * When validation returns and when it raises *)

Section Returning.

Context `{StrParse} `{Runtime}.

Lemma not_bare (tag : string) :
  in_strs (JStr tag) ["HOME"; "STOP"; "STATUS"] = false ->
  ~ In tag ["HOME"; "STOP"; "STATUS"].
Proof.
  intros Hb Hin.
  assert (Ht : in_strs (JStr tag) ["HOME"; "STOP"; "STATUS"] = true).
  { apply in_strs_bare. simpl in Hin.
    destruct Hin as [<- | [<- | [<- | []]]]; auto. }
  congruence.
Qed.

(** An entry the loop gets past without a command is an omitted one. *)
Lemma validate_cmd_omitted (c : json) :
  validate_cmd c = Ok None -> omitted c.
Proof.
  destruct c as [| [] | z | f | s | l | kv]; try discriminate;
    try (intros _; exact I).
  - reflexivity.
  - unfold validate_cmd. simpl. destruct (Z.eqb_spec z 0); [auto|discriminate].
  - destruct f; try discriminate. intros _. simpl. eauto.
  - destruct l as [|op rest]; [intros _; exact I|].
    destruct op as [| b | z | f | tag | l' | kv]; try (intros _; exact I).
    unfold validate_cmd, tag_and_len, omitted, arity.
    cbn [truthy negb py_getitem nth_error py_len rbind length Nat.eqb eq_str].
    destruct (String.eqb tag "MOVE") eqn:E1; cbn [rbind].
    { apply String.eqb_eq in E1. subst tag.
      destruct (Nat.eqb (length rest) 6) eqn:El.
      - apply Nat.eqb_eq in El.
        do 7 (destruct rest as [|? rest]; try discriminate El).
        cbn [unpack7 py_iter rbind].
        destruct (clip_joint _ base); [|discriminate].
        destruct (clip_joint _ shoulder); [|discriminate].
        destruct (clip_joint _ elbow); [|discriminate].
        destruct (clip_joint _ wrist); [|discriminate].
        destruct (grip_state _); [|discriminate].
        destruct (clamp_ms _ _ _); discriminate.
      - intros _. split; [now apply not_bare|].
        apply Nat.eqb_neq in El. congruence. }
    destruct (in_strs (JStr tag) _) eqn:Ebare; [discriminate|].
    apply not_bare in Ebare.
    destruct (String.eqb tag "GRIP") eqn:E2; cbn [rbind].
    { destruct (Nat.eqb (length rest) 1) eqn:El.
      - apply Nat.eqb_eq in El.
        do 2 (destruct rest as [|? rest]; try discriminate El).
        cbn [py_getitem nth_error rbind].
        destruct (grip_state _); discriminate.
      - apply String.eqb_eq in E2. subst tag. intros _.
        split; [assumption|]. apply Nat.eqb_neq in El. simpl. congruence. }
    destruct (String.eqb tag "WAIT") eqn:E3; cbn [rbind].
    { destruct (Nat.eqb (length rest) 1) eqn:El.
      - apply Nat.eqb_eq in El.
        do 2 (destruct rest as [|? rest]; try discriminate El).
        cbn [py_getitem nth_error rbind].
        destruct (clamp_ms _ _ _); discriminate.
      - intros _. split; [assumption|].
        apply Nat.eqb_neq in El. congruence. }
    intros _. split; [assumption|].
    destruct (String.eqb tag "HOME") eqn:E4.
    { apply String.eqb_eq in E4. subst tag. exfalso. apply Ebare.
      simpl. auto. }
    destruct (String.eqb tag "STOP") eqn:E5.
    { apply String.eqb_eq in E5. subst tag. exfalso. apply Ebare.
      simpl. auto. }
    destruct (String.eqb tag "STATUS") eqn:E6; [|discriminate].
    apply String.eqb_eq in E6. subst tag. exfalso. apply Ebare.
    simpl. auto.
  - destruct kv; [reflexivity | discriminate].
Qed.

Lemma loop_selects (cs : list json) :
  Forall (fun c => exists r, validate_cmd c = Ok r) cs ->
  selects cs (omap kept cs).
Proof.
  induction 1 as [|c cs [r Hr] _ IH]; simpl; [constructor|].
  unfold kept at 1. rewrite Hr. destruct r as [o|].
  - apply sel_keep; [now apply validate_cmd_sound | exact IH].
  - apply sel_drop; [now apply validate_cmd_omitted | exact IH].
Qed.

Lemma int_ok_accepted (v : json) : int_ok v <-> int_accepted v.
Proof.
  unfold int_ok. destruct v as [| b | z | f | s | l | kv]; simpl;
    try (split; [intros [? [=]] | contradiction]);
    try (split; [exact (fun _ => I) | eauto]).
  - destruct f; simpl;
      try (split; [intros [? [=]] | discriminate]);
      (split; [reflexivity | eauto]).
  - destruct (int_of_str s) as [z|].
    + split; eauto.
    + split; [intros [? [=]] | intros [? [=]]].
Qed.

Lemma float_ok_accepted (v : json) : float_ok v <-> float_accepted v.
Proof.
  unfold float_ok. destruct v as [| b | z | f | s | l | kv]; simpl;
    try (split; [intros [? [=]] | contradiction]).
  - split; [exact (fun _ => I)|]. intros _.
    destruct b; eexists; vm_compute; reflexivity.
  - unfold Num.float_of_int, nearest.
    destruct (binary_normalize Num.prec Num.emax z 0 false) as [| s | |];
      try (split; [discriminate | eauto]).
    split; [intros [? [=]] | intros Hno; now destruct (Hno s)].
  - split; eauto.
  - destruct (float_of_str s) as [f|].
    + split; eauto.
    + split; [intros [? [=]] | intros [? [=]]].
Qed.

(** C2, as the code has it.  The loop has no exception handling.  On a
    plan that is a list it returns exactly when every entry is passable: a
    falsy value, a string, or a list in which the fields of a MOVE of
    seven elements and of a GRIP or WAIT of two are accepted by [float]
    and [int]; it raises otherwise.  When it returns, its output holds the
    command of each entry that gives one, in order, and the other
    entries, which are falsy, strings, or lists with a first element that
    is not a string, an unknown tag or the wrong arity, are omitted.
    [int] accepts ints, bools, floats that are numbers and strings that
    parse; [float] accepts floats, bools, ints in the range of binary64
    and strings that parse.  A plan that is a string or a dict gives no
    command; one that is null, a bool or a number raises [TypeError].
    When the loop raises on the [cmds] of the plan, the handler ends in
    that exception, unhandled; when it returns, the handler answers its
    output. *)
Theorem validate_returns :
  (forall cs,
      (Forall passable cs <-> exists out, validate (JList cs) = Ok out) /\
      (~ Forall passable cs <-> exists ex, validate (JList cs) = Raise ex) /\
      (forall out, validate (JList cs) = Ok out -> selects cs out)) /\
  (forall v, int_ok v <-> int_accepted v) /\
  (forall v, float_ok v <-> float_accepted v) /\
  (forall s, validate (JStr s) = Ok []) /\
  (forall kv, validate (JDict kv) = Ok []) /\
  (forall cmds, not_iterable cmds -> validate cmds = Raise TypeError) /\
  (forall rid req key now w e text kv,
      bad_key key = false ->
      LATEST w !! rid = Some e ->
      stale now e = false ->
      responses_create (b64 e) (mime e) = inr text ->
      json_loads text = inr (JDict kv) ->
      brain rid req key now w
      = (match validate (default (JList []) (dict_get kv "cmds")) with
         | Ok safe => Response (JDict [("cmds", JList safe)])
         | Raise ex => Unhandled ex
         end, log_call e w)).
Proof.
  repeat split.
  - intros Hall. exists (omap kept cs). apply validate_spec.
    exists cs. repeat split.
    eapply Forall_impl; [exact Hall|]. intros c. apply validate_cmd_returns.
  - intros [out Hv]. apply validate_spec in Hv as (cs' & [= <-] & Hall & _).
    eapply Forall_impl; [exact Hall|]. intros c. apply validate_cmd_returns.
  - intros Hno. destruct (validate (JList cs)) as [out|ex] eqn:Hv; [|eauto].
    exfalso. apply Hno.
    apply validate_spec in Hv as (cs' & [= <-] & Hall & _).
    eapply Forall_impl; [exact Hall|]. intros c. apply validate_cmd_returns.
  - intros [ex Hv] Hall.
    assert (Hok : validate (JList cs) = Ok (omap kept cs)).
    { apply validate_spec. exists cs. repeat split.
      eapply Forall_impl; [exact Hall|]. intros c.
      apply validate_cmd_returns. }
    congruence.
  - intros out Hv. apply validate_spec in Hv as (cs' & [= <-] & Hall & ->).
    now apply loop_selects.
  - apply int_ok_accepted.
  - apply int_ok_accepted.
  - apply float_ok_accepted.
  - apply float_ok_accepted.
  - intros s. unfold validate. cbn [py_iter rbind].
    apply validate_loop_strs.
    induction s as [|a s IH]; simpl; constructor; eauto.
  - intros kv. unfold validate. cbn [py_iter rbind].
    apply validate_loop_strs.
    induction kv as [|[k v] kv IH]; simpl; constructor; eauto.
  - intros cmds Hni. destruct cmds; try contradiction; reflexivity.
  - intros rid req key now w e text kv Hkey He Hst Ht Hl.
    unfold brain, ask_oracle. rewrite Hkey, He, Hst, Ht, Hl.
    cbn [plan_cmds]. destruct (validate _); reflexivity.
Qed.

End Returning.

(** The service answers [{"cmds": [["WAIT", null]]}]: the loop raises and
    the handler ends in its exception. *)
Lemma validate_returns_witness :
  @brain plain_decimal
    (stub (inr "{}")
          (inr (JDict [("cmds", JList [JList [JStr "WAIT"; JNull]])])))
    "r1" None (Some "k") at_60 one_robot
  = (Unhandled TypeError, log_call snapshot one_robot).
Proof.
  refine (proj2 (proj2 (proj2 (proj2 (proj2 (proj2
            (@validate_returns plain_decimal
               (stub (inr "{}")
                  (inr (JDict [("cmds",
                                JList [JList [JStr "WAIT"; JNull]])])))))))))
            "r1" None (Some "k") at_60 one_robot snapshot "{}"
            [("cmds", JList [JList [JStr "WAIT"; JNull]])] _ _ _ _ _);
    vm_compute; reflexivity.
Defined.
